(** * lpc-mcp: the bridge between the tool protocol and the LPC language server

    A shallow embedding of [src/index.js] (the [Server] variant with one
    [CallToolRequestSchema] handler) and of its successor built on
    [McpServer.registerTool] (one callback per tool), followed by the
    properties of the bridge that the specification states.

    Layout:
    - [JsText]     : UTF-16 text, [split], [join], [trim], [startsWith];
    - [CleanStream]: the [Transform] that filters the engine's stdout;
    - [Json]       : JSON values and [JSON.stringify(v, null, 2)];
    - [Lsp], [Mcp] : the protocol data on the engine side and on the
                     assistant side;
    - [Bridge]     : server state, the effect monad, the tool handlers,
                     [startLSP] and [run];
    - [Scenario]   : concrete environments and runs;
    - the theorems.

    [console.error] output is diagnostic only and is not modelled. *)

From stdpp Require Import base gmap strings list pretty sorting.
From Stdlib Require Import ZArith Lia Ascii.

Open Scope Z_scope.

(* ===================================================================== *)
(** ** JavaScript text *)
(* ===================================================================== *)

Module JsText.

(** A JavaScript string is a sequence of UTF-16 code units. *)
Definition char := N.
Definition jsstring := list char.

Definition of_string (s : string) : jsstring :=
  map Ascii.N_of_ascii (String.list_ascii_of_string s).

(** The code points of UTF-8 bytes; a byte that starts no well-formed
    sequence decodes to U+FFFD. *)
Fixpoint codePoints (bytes : list N) : list N :=
  let cont b := ((0x80 <=? b) && (b <? 0xC0))%N in
  match bytes with
  | [] => []
  | b :: rest =>
      if (b <? 0x80)%N then b :: codePoints rest
      else
        match rest with
        | b1 :: rest1 =>
            if ((0xC0 <=? b) && (b <? 0xE0) && cont b1)%N then
              ((b - 0xC0) * 0x40 + (b1 - 0x80))%N :: codePoints rest1
            else
              match rest1 with
              | b2 :: rest2 =>
                  if ((0xE0 <=? b) && (b <? 0xF0) && cont b1 && cont b2)%N then
                    ((b - 0xE0) * 0x1000 + (b1 - 0x80) * 0x40 + (b2 - 0x80))%N
                    :: codePoints rest2
                  else
                    match rest2 with
                    | b3 :: rest3 =>
                        if ((0xF0 <=? b) && (b <? 0xF8)
                            && cont b1 && cont b2 && cont b3)%N
                        then
                          ((b - 0xF0) * 0x40000 + (b1 - 0x80) * 0x1000
                           + (b2 - 0x80) * 0x40 + (b3 - 0x80))%N
                          :: codePoints rest3
                        else 0xFFFD%N :: codePoints rest
                    | [] => 0xFFFD%N :: codePoints rest
                    end
              | [] => 0xFFFD%N :: codePoints rest
              end
        | [] => [0xFFFD%N]
        end
  end.

(** UTF-16: one unit in the BMP, a surrogate pair above it. *)
Definition codeUnits (cp : N) : list char :=
  if (cp <? 0x10000)%N then [cp]
  else [(0xD800 + (cp - 0x10000) / 0x400)%N;
        (0xDC00 + (cp - 0x10000) mod 0x400)%N].

(** The JavaScript string whose UTF-8 encoding is [s]. *)
Definition of_utf8 (s : string) : jsstring :=
  concat (map codeUnits
            (codePoints (map Ascii.N_of_ascii (String.list_ascii_of_string s)))).

(** [a <= b] on strings: code unit by code unit, a proper prefix
    first. *)
Fixpoint leb (a b : jsstring) : bool :=
  match a, b with
  | [], _ => true
  | _ :: _, [] => false
  | x :: a', y :: b' =>
      if (x <? y)%N then true
      else if (y <? x)%N then false
      else leb a' b'
  end.

Definition LF : char := 10%N.

(** ECMAScript [WhiteSpace] and [LineTerminator] code points: what
    [String.prototype.trim] strips. All of them are in the BMP. *)
Definition isWhiteSpace (c : char) : bool :=
  ((c =? 0x09) || (c =? 0x0A) || (c =? 0x0B) || (c =? 0x0C) || (c =? 0x0D)
   || (c =? 0x20) || (c =? 0xA0) || (c =? 0x1680)
   || ((0x2000 <=? c) && (c <=? 0x200A))
   || (c =? 0x2028) || (c =? 0x2029) || (c =? 0x202F) || (c =? 0x205F)
   || (c =? 0x3000) || (c =? 0xFEFF))%N.

(** [s.split("\n")]: never empty; a trailing newline yields a last
    empty piece. *)
Fixpoint split (s : jsstring) : list jsstring :=
  match s with
  | [] => [[]]
  | c :: s' =>
      if (c =? LF)%N then [] :: split s'
      else match split s' with
           | l :: ls => (c :: l) :: ls
           | [] => [[c]]
           end
  end.

(** [ls.join("\n")]. *)
Fixpoint join (ls : list jsstring) : jsstring :=
  match ls with
  | [] => []
  | [l] => l
  | l :: ls' => l ++ LF :: join ls'
  end.

Fixpoint trimStart (s : jsstring) : jsstring :=
  match s with
  | [] => []
  | c :: s' => if isWhiteSpace c then trimStart s' else s
  end.

Fixpoint trimEnd (s : jsstring) : jsstring :=
  match s with
  | [] => []
  | c :: s' =>
      match trimEnd s' with
      | [] => if isWhiteSpace c then [] else [c]
      | t => c :: t
      end
  end.

(** [s.trim()]. *)
Definition trim (s : jsstring) : jsstring := trimEnd (trimStart s).

(** [s.startsWith(p)]. *)
Fixpoint startsWith (s p : jsstring) {struct p} : bool :=
  match p, s with
  | [], _ => true
  | _ :: _, [] => false
  | a :: p', b :: s' => (b =? a)%N && startsWith s' p'
  end.

Definition isEmpty (s : jsstring) : bool :=
  match s with [] => true | _ => false end.

(** A pattern whose last code unit is not white space. *)
Fixpoint endsSolid (p : jsstring) : bool :=
  match p with
  | [] => false
  | [a] => negb (isWhiteSpace a)
  | _ :: p' => endsSolid p'
  end.

End JsText.

(* ===================================================================== *)
(** ** The filter on the engine's output stream *)
(* ===================================================================== *)

Module CleanStream.
Import JsText.

Definition contentLength : jsstring := of_string "Content-Length:".
Definition openBrace : jsstring := of_string "{".

(** The predicate handed to [lines.filter]. *)
Definition keep (line : jsstring) : bool :=
  let trimmed := trim line in
  startsWith trimmed contentLength
  || startsWith trimmed openBrace
  || isEmpty trimmed.

Definition filtered (data : jsstring) : jsstring :=
  join (List.filter keep (split data)).

(** [transform(chunk, encoding, callback)]: what is pushed downstream
    for one chunk; [None] when [filtered] is the empty string (falsy)
    and nothing is pushed. [data] is [chunk.toString()]. *)
Definition transform (data : jsstring) : option jsstring :=
  let f := filtered data in
  if isEmpty f then None else Some f.

(** The text that reaches the reader for one chunk. *)
Definition emitted (data : jsstring) : jsstring :=
  match transform data with
  | Some out => out
  | None => []
  end.

(** The classification as the specification words it: the line itself
    is blank, or begins with the header, or begins with a brace. *)
Definition spec_keep (line : jsstring) : bool :=
  isEmpty (trim line)
  || startsWith line contentLength
  || startsWith line openBrace.

(** The chunk filtered by that classification. *)
Definition spec_filtered (data : jsstring) : jsstring :=
  join (List.filter spec_keep (split data)).

End CleanStream.

(* ===================================================================== *)
(** ** JSON values and their rendering *)
(* ===================================================================== *)

Module Json.

Open Scope string_scope.

(** Values exchanged with the engine. Numbers are the integers the
    protocol carries (positions, severities, versions, ids); object
    members are kept in enumeration order, with distinct keys as in a
    parsed object. Text is kept as its UTF-8 bytes. *)
#[local] Set Warnings "-register-all".
Inductive json : Type :=
| JNull
| JBool (b : bool)
| JNumber (n : Z)
| JString (s : string)
| JArray (items : list json)
| JObject (members : list (string * json)).

Definition nl : string := String "010"%char "".
Definition dquote : string := String "034"%char "".
Definition backslash : string := String "092"%char "".

Definition hexDigit (n : N) : string :=
  String (nth (N.to_nat n)
            (String.list_ascii_of_string "0123456789abcdef") "0"%char) "".

(** One code unit inside [QuoteJSONString]. *)
Definition quoteChar (c : ascii) : string :=
  let n := Ascii.N_of_ascii c in
  if (n =? 8)%N then backslash ++ "b"
  else if (n =? 9)%N then backslash ++ "t"
  else if (n =? 10)%N then backslash ++ "n"
  else if (n =? 12)%N then backslash ++ "f"
  else if (n =? 13)%N then backslash ++ "r"
  else if (n =? 34)%N then backslash ++ dquote
  else if (n =? 92)%N then backslash ++ backslash
  else if (n <? 32)%N then
    backslash ++ "u00" ++ hexDigit (n / 16) ++ hexDigit (n mod 16)
  else String c "".

Fixpoint quoteBody (s : string) : string :=
  match s with
  | EmptyString => ""
  | String c s' => quoteChar c ++ quoteBody s'
  end.

Definition quote (s : string) : string := dquote ++ quoteBody s ++ dquote.

(** The gap of [JSON.stringify(value, null, 2)]. *)
Definition gap : string := "  ".

(** [SerializeJSONProperty] at the current indentation. *)
Fixpoint serialize (indent : string) (v : json) : string :=
  match v with
  | JNull => "null"
  | JBool true => "true"
  | JBool false => "false"
  | JNumber n => pretty n
  | JString s => quote s
  | JArray [] => "[]"
  | JArray items =>
      let inner := indent ++ gap in
      "[" ++ nl ++ inner
      ++ String.concat ("," ++ nl ++ inner) (map (serialize inner) items)
      ++ nl ++ indent ++ "]"
  | JObject [] => "{}"
  | JObject members =>
      let inner := indent ++ gap in
      "{" ++ nl ++ inner
      ++ String.concat ("," ++ nl ++ inner)
           (map (fun kv => quote (fst kv) ++ ": " ++ serialize inner (snd kv))
                members)
      ++ nl ++ indent ++ "}"
  end.

(** [JSON.stringify(value, null, 2)]. *)
Definition stringify (v : json) : string := serialize "" v.

End Json.

(* ===================================================================== *)
(** ** Protocol data *)
(* ===================================================================== *)

(** The engine side: the members of the language-server protocol that
    the bridge reads or writes. *)
Module Lsp.
Import Json.
Open Scope string_scope.

Record Position := { line : Z; character : Z }.
Record Range := { start : Position; end_ : Position }.

(** [o.key] on a parsed value: the member of an object, [undefined]
    ([None]) when the object has none or the value is no object. *)
Fixpoint member (key : string) (members : list (string * json))
  : option json :=
  match members with
  | [] => None
  | (k, v) :: rest => if String.eqb k key then Some v else member key rest
  end.

Definition get (key : string) (v : json) : option json :=
  match v with
  | JObject members => member key members
  | _ => None
  end.

Definition isNumber (v : option json) : bool :=
  match v with Some (JNumber _) => true | _ => false end.

Definition isPosition (v : option json) : bool :=
  match v with
  | Some p => isNumber (get "line" p) && isNumber (get "character" p)
  | None => false
  end.

(** The protocol's type of one issue, as far as the bridge reads it: an
    object whose [range] has a [start] and an [end] position, whose
    [message] is a string and whose [severity], when present, is a
    number. Member order and further members are free. *)
Definition isDiagnostic (o : json) : bool :=
  match get "range" o with
  | Some r => isPosition (get "start" r) && isPosition (get "end" r)
  | None => false
  end
  && match get "message" o with Some (JString _) => true | _ => false end
  && match get "severity" o with
     | None | Some (JNumber _) => true
     | _ => false
     end.

(** One issue of a [textDocument/publishDiagnostics] push: the object as
    it was received, of the protocol's type. *)
Record Diagnostic := {
  received : json;
  received_ok : isDiagnostic received = true
}.

Definition numberOr (d : Z) (v : option json) : Z :=
  match v with Some (JNumber n) => n | _ => d end.

Definition positionAt (key : string) (r : option json) : Position :=
  let p := match r with Some r => get key r | None => None end in
  {| line := numberOr 0 (match p with Some p => get "line" p | None => None end);
     character :=
       numberOr 0 (match p with Some p => get "character" p | None => None end) |}.

(** [d.range], [d.severity] and [d.message]. *)
Definition range (d : Diagnostic) : Range :=
  {| start := positionAt "start" (get "range" (received d));
     end_ := positionAt "end" (get "range" (received d)) |}.

Definition severity (d : Diagnostic) : option Z :=
  match get "severity" (received d) with
  | Some (JNumber n) => Some n
  | _ => None
  end.

Definition message (d : Diagnostic) : string :=
  match get "message" (received d) with
  | Some (JString m) => m
  | _ => ""
  end.

Record PublishDiagnosticsParams := {
  uri : string;
  diagnostics : list Diagnostic
}.

Record TextDocumentItem := {
  doc_uri : string;
  languageId : string;
  version : Z;
  text : string
}.

Record ReferenceContext := { includeDeclaration : bool }.

Inductive NotificationParams :=
| DidOpenParams (textDocument : TextDocumentItem)
| EmptyParams.

Inductive RequestParams :=
| PositionParams (textDocument : string) (position : Position)
    (context : option ReferenceContext)
| InitializeParams (processId : Z) (rootUri : option string).

End Lsp.

(** The assistant side: a tool call and its result. *)
Module Mcp.

(** [request.params.arguments], with the members that the tools'
    [inputSchema] requires; a tool that declares no position never reads
    [line] and [character]. *)
Record Arguments := { file : string; line : Z; character : Z }.

(** [request.params]: [arguments] is optional in the tool protocol. *)
Record CallToolRequest := { name : string; arguments : option Arguments }.

Record TextContent := { type : string; text : string }.

(** [isError] is [false] where the source leaves the member out. *)
Record CallToolResult := { content : list TextContent; isError : bool }.

End Mcp.

(* ===================================================================== *)
(** ** The bridge *)
(* ===================================================================== *)

Module Bridge.
Import Json.
Open Scope string_scope.

(** *** State of [LPCMCPServer] *)

Inductive ChildProcess := Spawned (command : string) (args : list string).
Inductive MessageConnection := Connection (process : ChildProcess).

Record LPCMCPServer := {
  lspProcess : option ChildProcess;
  lspConnection : option MessageConnection;
  diagnosticsCache : gmap string (list Lsp.Diagnostic)
}.

(** The object the constructor builds. *)
Definition constructor : LPCMCPServer :=
  {| lspProcess := None; lspConnection := None; diagnosticsCache := ∅ |}.

(** *** Calls that leave the bridge *)

Inductive Effect :=
| Spawn (command : string) (args : list string)
| Listen
| FsReadFile (path encoding : string)
| SendNotification (method : string) (params : Lsp.NotificationParams)
| SendRequest (method : string) (params : Lsp.RequestParams)
| SetTimeout (ms : Z)
| ServerConnect.

(** How an awaited call ends: with a value, with an error, or not at
    all (the promise never settles). *)
Inductive Result (A : Type) :=
| Ok (a : A)
| Err (message : string)
| Unsettled.
Arguments Ok {A} a.
Arguments Err {A} message.
Arguments Unsettled {A}.

(** What the engine does with a request: it answers after a delay in
    milliseconds, with a result or an error response, or it stays
    silent. An answer that is [Unsettled] never reaches the caller. *)
Inductive Reply :=
| Answer (after : Z) (r : Result json)
| Silent.

(** Everything outside the bridge, as seen during one run or one tool
    call. [arrivals e] are the diagnostics pushes that the connection
    delivers while the caller is suspended on [e]. *)
Record World := {
  readFile : string -> string -> Result string;
  notified : string -> Lsp.NotificationParams -> Result unit;
  replied : string -> Lsp.RequestParams -> Reply;
  timerWinsTie : bool;
  arrivals : Effect -> list Lsp.PublishDiagnosticsParams;
  HOME : string;
  LPC_WORKSPACE_ROOT : option string;
  pid : Z;
  extensions : list string
}.

(** *** The diagnostics cache *)

(** [this.diagnosticsCache.set(uri, diagnostics)]. *)
Definition cache_set (uri : string) (ds : list Lsp.Diagnostic)
    (cache : gmap string (list Lsp.Diagnostic))
  : gmap string (list Lsp.Diagnostic) :=
  <[uri := ds]> cache.

(** [this.diagnosticsCache.get(uri) || []]: an array is truthy, even
    an empty one, so only a missing entry falls through to [[]]. *)
Definition cache_get (uri : string)
    (cache : gmap string (list Lsp.Diagnostic)) : list Lsp.Diagnostic :=
  match cache !! uri with
  | Some ds => ds
  | None => []
  end.

(** The handler registered for [textDocument/publishDiagnostics]. *)
Definition onPublishDiagnostics (params : Lsp.PublishDiagnosticsParams)
    (s : LPCMCPServer) : LPCMCPServer :=
  {| lspProcess := lspProcess s;
     lspConnection := lspConnection s;
     diagnosticsCache :=
       cache_set (Lsp.uri params) (Lsp.diagnostics params)
                 (diagnosticsCache s) |}.

(** Pushes are handled one at a time, in arrival order; the handler
    exists once the connection does. *)
Definition deliver (pushes : list Lsp.PublishDiagnosticsParams)
    (s : LPCMCPServer) : LPCMCPServer :=
  match lspConnection s with
  | Some _ => fold_left (fun s p => onPublishDiagnostics p s) pushes s
  | None => s
  end.

(** *** Asynchronous computations *)

(** How an [async] function ends: it returns, it throws an [Error]
    with a message, or the promise it waits for never settles. *)
Inductive Completion (A : Type) :=
| Return (a : A)
| Throw (message : string)
| Pending.
Arguments Return {A} a.
Arguments Throw {A} message.
Arguments Pending {A}.

Definition M (A : Type) : Type :=
  World -> LPCMCPServer -> Completion A * LPCMCPServer * list Effect.

Definition ret {A} (a : A) : M A := fun _ s => (Return a, s, []).

Definition throw {A} (message : string) : M A :=
  fun _ s => (Throw message, s, []).

Definition bind {A B} (m : M A) (f : A -> M B) : M B :=
  fun w s =>
    match m w s with
    | (Return a, s1, t1) =>
        let '(c, s2, t2) := f a w s1 in (c, s2, (t1 ++ t2)%list)
    | (Throw e, s1, t1) => (Throw e, s1, t1)
    | (Pending, s1, t1) => (Pending, s1, t1)
    end.

(** [try { m } catch(error) { handler(error.message) }]. *)
Definition try_catch {A} (m : M A) (handler : string -> M A) : M A :=
  fun w s =>
    match m w s with
    | (Throw e, s1, t1) =>
        let '(c, s2, t2) := handler e w s1 in (c, s2, (t1 ++ t2)%list)
    | r => r
    end.

Definition get_state : M LPCMCPServer := fun _ s => (Return s, s, []).
Definition put_state (s : LPCMCPServer) : M unit :=
  fun _ _ => (Return tt, s, []).
Definition ask : M World := fun w s => (Return w, s, []).

Notation "x <- m ;; k" := (bind m (fun x => k))
  (at level 100, m at next level, right associativity).
Notation "m ;;; k" := (bind m (fun _ => k))
  (at level 100, right associativity).

(** [await] on a call that settles: the effect is recorded, the pushes
    that arrive meanwhile are handled, then the call's outcome is
    resumed with. *)
Definition await {A} (e : Effect) (outcome : World -> Result A) : M A :=
  fun w s =>
    let s' := deliver (arrivals w e) s in
    match outcome w with
    | Ok a => (Return a, s', [e])
    | Err m => (Throw m, s', [e])
    | Unsettled => (Pending, s', [e])
    end.

(** [fs.readFile(path, "utf-8")]. *)
Definition fs_readFile (path encoding : string) : M string :=
  await (FsReadFile path encoding) (fun w => readFile w path encoding).

(** [this.lspConnection.sendNotification(method, params)]. *)
Definition sendNotification (method : string)
    (params : Lsp.NotificationParams) : M unit :=
  await (SendNotification method params) (fun w => notified w method params).

(** [this.lspConnection.sendRequest(method, params)], awaited with no
    timeout of its own. *)
Definition sendRequest (method : string) (params : Lsp.RequestParams)
  : M json :=
  fun w s =>
    let e := SendRequest method params in
    let s' := deliver (arrivals w e) s in
    match replied w method params with
    | Answer _ (Ok v) => (Return v, s', [e])
    | Answer _ (Err m) => (Throw m, s', [e])
    | Answer _ Unsettled | Silent => (Pending, s', [e])
    end.

(** [new Promise(resolve => setTimeout(resolve, ms))]. *)
Definition sleep (ms : Z) : M unit :=
  await (SetTimeout ms) (fun _ => Ok tt).

(** [Promise.race([sendRequest(method, params),
      new Promise((_, reject) =>
        setTimeout(() => reject(new Error(message)), ms))])]. *)
Definition race_with_timeout (method : string)
    (params : Lsp.RequestParams) (ms : Z) (message : string) : M json :=
  fun w s =>
    let e := SendRequest method params in
    let s' := deliver (arrivals w e) s in
    let t := [e; SetTimeout ms] in
    match replied w method params with
    | Silent => (Throw message, s', t)
    | Answer after r =>
        if ((ms <? after)%Z || ((after =? ms)%Z && timerWinsTie w))%bool
        then (Throw message, s', t)
        else match r with
             | Ok v => (Return v, s', t)
             | Err m => (Throw m, s', t)
             | Unsettled => (Throw message, s', t)
             end
    end.

(** *** Tool results *)

Definition textResult (t : string) : Mcp.CallToolResult :=
  {| Mcp.content := [{| Mcp.type := "text"; Mcp.text := t |}];
     Mcp.isError := false |}.

(** The object built in every [catch(error)] block. *)
Definition errorResult (message : string) : Mcp.CallToolResult :=
  {| Mcp.content :=
       [{| Mcp.type := "text"; Mcp.text := "Error: " ++ message |}];
     Mcp.isError := true |}.

Definition severityNames : list string :=
  ["Error"; "Warning"; "Information"; "Hint"].

(** [severityNames[d.severity - 1] || "Unknown"]: a missing severity
    gives the index [NaN], an index outside the array [undefined]. *)
Definition severityName (sev : option Z) : string :=
  match sev with
  | Some n =>
      if (0 <=? n - 1)%Z
      then default "Unknown" (severityNames !! Z.to_nat (n - 1))
      else "Unknown"
  | None => "Unknown"
  end.

(** The arrow function of [diagnostics.map]. *)
Definition formatDiagnostic (d : Lsp.Diagnostic) : string :=
  let severity := severityName (Lsp.severity d) in
  let line := (Lsp.line (Lsp.start (Lsp.range d)) + 1)%Z in
  let char := (Lsp.character (Lsp.start (Lsp.range d)) + 1)%Z in
  "[" ++ severity ++ "] Line " ++ pretty line ++ ":" ++ pretty char
  ++ " - " ++ Lsp.message d.

Definition noDiagnosticsText : string :=
  "No diagnostics found for this file. The code appears to be valid.".

Definition diagnosticsText (diagnostics : list Lsp.Diagnostic) : string :=
  let formatted := String.concat nl (map formatDiagnostic diagnostics) in
  "Found " ++ pretty (length diagnostics) ++ " diagnostic(s):" ++ nl ++ nl
  ++ formatted ++ nl ++ nl ++ "Raw diagnostics:" ++ nl
  ++ stringify (JArray (map Lsp.received diagnostics)).

(** The tail of the diagnostics tool, from the cached array on. *)
Definition diagnosticsResult (diagnostics : list Lsp.Diagnostic)
  : Mcp.CallToolResult :=
  match diagnostics with
  | [] => textResult noDiagnosticsText
  | _ => textResult (diagnosticsText diagnostics)
  end.

(** *** Requests and notifications sent to the engine *)

Definition fileUri (file : string) : string := "file://" ++ file.

Definition didOpen (uri fileContent : string) : Lsp.NotificationParams :=
  Lsp.DidOpenParams
    {| Lsp.doc_uri := uri; Lsp.languageId := "lpc";
       Lsp.version := 1; Lsp.text := fileContent |}.

Definition positionOf (line character : Z) : Lsp.Position :=
  {| Lsp.line := line; Lsp.character := character |}.

(** *** The handlers of [setupHandlers] *)

(** The names that the [ListToolsRequestSchema] handler announces. *)
Definition listTools : list string :=
  ["lpc_hover"; "lpc_definition"; "lpc_references"; "lpc_diagnostics"].

(** The message of the [TypeError] that [args.file] raises when the
    call carries no [arguments]. *)
Definition undefinedArguments : string :=
  "Cannot read properties of undefined (reading 'file')".

(** The [CallToolRequestSchema] handler. The guard and the [uri] come
    before the [try], so a call without [arguments] throws out of the
    handler; [await import("fs/promises")] loads a built-in module and
    is folded into the read that follows it. *)
Definition callTool (request : Mcp.CallToolRequest)
  : M Mcp.CallToolResult :=
  let name := Mcp.name request in
  this <- get_state ;;
  match lspConnection this with
  | None => throw "LSP not initialized"
  | Some _ =>
      match Mcp.arguments request with
      | None => throw undefinedArguments
      | Some args =>
          let uri := fileUri (Mcp.file args) in
          try_catch
            (fileContent <- fs_readFile (Mcp.file args) "utf-8" ;;
             sendNotification "textDocument/didOpen" (didOpen uri fileContent) ;;;
             if String.eqb name "lpc_hover" then
               result <- sendRequest "textDocument/hover"
                           (Lsp.PositionParams uri
                              (positionOf (Mcp.line args) (Mcp.character args))
                              None) ;;
               ret (textResult (stringify result))
             else if String.eqb name "lpc_definition" then
               result <- sendRequest "textDocument/definition"
                           (Lsp.PositionParams uri
                              (positionOf (Mcp.line args) (Mcp.character args))
                              None) ;;
               ret (textResult (stringify result))
             else if String.eqb name "lpc_references" then
               result <- sendRequest "textDocument/references"
                           (Lsp.PositionParams uri
                              (positionOf (Mcp.line args) (Mcp.character args))
                              (Some {| Lsp.includeDeclaration := true |})) ;;
               ret (textResult (stringify result))
             else if String.eqb name "lpc_diagnostics" then
               sleep 500 ;;;
               this <- get_state ;;
               let diagnostics := cache_get uri (diagnosticsCache this) in
               ret (diagnosticsResult diagnostics)
             else throw ("Unknown tool: " ++ name))
            (fun message => ret (errorResult message))
      end
  end.

(** *** The callbacks registered by [setupTools] ([McpServer] variant) *)

Module Tools.

(** Guard, file read, [didOpen], then [body uri], all but the guard
    inside the callback's [try]: the frame the four callbacks
    repeat. *)
Definition opened (file : string)
    (body : string -> M Mcp.CallToolResult) : M Mcp.CallToolResult :=
  this <- get_state ;;
  match lspConnection this with
  | None => throw "LSP not initialized"
  | Some _ =>
      let uri := fileUri file in
      try_catch
        (fileContent <- fs_readFile file "utf-8" ;;
         sendNotification "textDocument/didOpen" (didOpen uri fileContent) ;;;
         body uri)
        (fun message => ret (errorResult message))
  end.

Definition lpc_hover (file : string) (line character : Z)
  : M Mcp.CallToolResult :=
  opened file (fun uri =>
    result <- sendRequest "textDocument/hover"
                (Lsp.PositionParams uri (positionOf line character) None) ;;
    ret (textResult (stringify result))).

Definition lpc_definition (file : string) (line character : Z)
  : M Mcp.CallToolResult :=
  opened file (fun uri =>
    result <- sendRequest "textDocument/definition"
                (Lsp.PositionParams uri (positionOf line character) None) ;;
    ret (textResult (stringify result))).

Definition lpc_references (file : string) (line character : Z)
  : M Mcp.CallToolResult :=
  opened file (fun uri =>
    result <- sendRequest "textDocument/references"
                (Lsp.PositionParams uri (positionOf line character)
                   (Some {| Lsp.includeDeclaration := true |})) ;;
    ret (textResult (stringify result))).

Definition lpc_diagnostics (file : string) : M Mcp.CallToolResult :=
  opened file (fun uri =>
    sleep 500 ;;;
    this <- get_state ;;
    let diagnostics := cache_get uri (diagnosticsCache this) in
    ret (diagnosticsResult diagnostics)).

(** The registry that [registerTool] fills: the callback for a name,
    applied to the validated arguments. *)
Definition registered (name : string)
  : option (Mcp.Arguments -> M Mcp.CallToolResult) :=
  if String.eqb name "lpc_hover" then
    Some (fun a => lpc_hover (Mcp.file a) (Mcp.line a) (Mcp.character a))
  else if String.eqb name "lpc_definition" then
    Some (fun a => lpc_definition (Mcp.file a) (Mcp.line a) (Mcp.character a))
  else if String.eqb name "lpc_references" then
    Some (fun a => lpc_references (Mcp.file a) (Mcp.line a) (Mcp.character a))
  else if String.eqb name "lpc_diagnostics" then
    Some (fun a => lpc_diagnostics (Mcp.file a))
  else None.

End Tools.

(** *** Start-up *)

Definition serverScript : string :=
  ".vscode/extensions/jlchmura.lpc-1.1.42/out/server/src/server.js".

(** [path.join] on segments that need no normalisation. *)
Definition path_join (a b : string) : string := a ++ "/" ++ b.

Definition spawn (command : string) (args : list string) : M ChildProcess :=
  fun _ s => (Return (Spawned command args), s, [Spawn command args]).

Definition listen : M unit := fun _ s => (Return tt, s, [Listen]).

(** [process.env.LPC_WORKSPACE_ROOT || null], then the [rootUri]
    conditional: the empty string is falsy. *)
Definition rootUri (w : World) : option string :=
  match LPC_WORKSPACE_ROOT w with
  | Some root => if String.eqb root "" then None else Some ("file://" ++ root)
  | None => None
  end.

(** From [spawn] to [listen]: the child process, the filtered reader,
    the connection with its observers and the diagnostics handler. *)
Definition connectEngine (lspPath : string) : M unit :=
  child <- spawn "node" [lspPath; "--stdio"] ;;
  this <- get_state ;;
  put_state {| lspProcess := Some child;
               lspConnection := Some (Connection child);
               diagnosticsCache := diagnosticsCache this |} ;;;
  listen.

Definition initTimeout : Z := 5000.

(** The [try] block around the handshake; its [catch] logs and
    rethrows. The constant [capabilities] member is left out of
    [InitializeParams]. *)
Definition handshake : M unit :=
  w <- ask ;;
  try_catch
    (initResult <- race_with_timeout "initialize"
                     (Lsp.InitializeParams (pid w) (rootUri w))
                     initTimeout "LSP init timeout" ;;
     sendNotification "initialized" Lsp.EmptyParams)
    (fun message => throw message).

(** [startLSP] with the fixed extension path. *)
Definition startLSP : M unit :=
  w <- ask ;;
  connectEngine (path_join (HOME w) serverScript) ;;;
  handshake.

(** The order of [Array.prototype.sort] with no comparator: the
    strings' UTF-16 code units. *)
Definition name_le (a b : string) : Prop :=
  JsText.leb (JsText.of_utf8 a) (JsText.of_utf8 b) = true.

#[local] Instance name_le_dec : RelDecision name_le.
Proof. intros a b. unfold name_le. apply _. Defined.

(** [directories.map(dir => dir.name).sort().reverse()[0]]. *)
Definition latestExtension (names : list string) : option string :=
  head (reverse (merge_sort name_le names)).

(** [startLSP] of the [McpServer] variant: the newest installed
    extension is looked up first. *)
Definition startLSP_latest : M unit :=
  w <- ask ;;
  match latestExtension (extensions w) with
  | None =>
      throw ("LPC language server extension not found. "
             ++ "Please install the jlchmura.lpc extension.")
  | Some latest =>
      connectEngine
        (path_join (path_join (path_join (HOME w) ".vscode/extensions") latest)
                   "out/server/src/server.js") ;;;
      handshake
  end.

(** [this.server.connect(transport)]. *)
Definition serverConnect : M unit := await ServerConnect (fun _ => Ok tt).

(** [run]. *)
Definition run : M unit := startLSP ;;; serverConnect.
Definition run_latest : M unit := startLSP_latest ;;; serverConnect.

(** [server.run().catch(console.error)]: the rejection is logged and
    nothing else is done. *)
Definition main : M unit := try_catch run (fun _ => ret tt).

(** *** Vocabulary of the statements *)

(** The session is usable by a tool call once the connection exists. *)
Definition ready (s : LPCMCPServer) : Prop := is_Some (lspConnection s).

Definition result_of {A} (r : Completion A * LPCMCPServer * list Effect)
  : Completion A := fst (fst r).
Definition state_of {A} (r : Completion A * LPCMCPServer * list Effect)
  : LPCMCPServer := snd (fst r).
Definition trace_of {A} (r : Completion A * LPCMCPServer * list Effect)
  : list Effect := snd r.

(** The [version] members of the document-open notifications in a
    trace, in sending order. *)
Definition openVersions (t : list Effect) : list Z :=
  omap (fun e => match e with
                 | SendNotification _ (Lsp.DidOpenParams d) => Some (Lsp.version d)
                 | _ => None
                 end) t.

(** The handlers of one tool for a call that carries its arguments: the
    [switch] branch of [callTool] and the callback that [setupTools]
    registers under the name (which the tool server only invokes with
    validated arguments). *)
Inductive operation (name : string) (args : Mcp.Arguments)
  : M Mcp.CallToolResult -> Prop :=
| op_callTool :
    operation name args
      (callTool {| Mcp.name := name; Mcp.arguments := Some args |})
| op_registered f :
    Tools.registered name = Some f -> operation name args (f args).

Definition isRequest (e : Effect) : bool :=
  match e with SendRequest _ _ => true | _ => false end.

Definition isInitialize (e : Effect) : bool :=
  match e with SendRequest m _ => String.eqb m "initialize" | _ => false end.

End Bridge.

(* ===================================================================== *)
(** ** Concrete runs *)
(* ===================================================================== *)

Module Scenario.
Import Json Bridge.
Open Scope string_scope.

Definition roomArgs : Mcp.Arguments :=
  {| Mcp.file := "/m/room.c"; Mcp.line := 4; Mcp.character := 10 |}.

Definition roomUri : string := "file:///m/room.c".

(** A cooperative environment: the file is readable, every notification
    is written, every request is answered with [null] after 10 ms, and
    the engine pushes nothing. *)
Definition quiet : World :=
  {| readFile := fun _ _ => Ok "int x;";
     notified := fun _ _ => Ok tt;
     replied := fun _ _ => Answer 10 (Ok JNull);
     timerWinsTie := false;
     arrivals := fun _ => [];
     HOME := "/home/u";
     LPC_WORKSPACE_ROOT := None;
     pid := 4242;
     extensions := ["jlchmura.lpc-1.1.42"] |}.

(** The same, but the file cannot be read. *)
Definition unreadable : World :=
  {| readFile := fun _ _ => Err "ENOENT: no such file or directory";
     notified := notified quiet;
     replied := replied quiet;
     timerWinsTie := timerWinsTie quiet;
     arrivals := arrivals quiet;
     HOME := HOME quiet;
     LPC_WORKSPACE_ROOT := LPC_WORKSPACE_ROOT quiet;
     pid := pid quiet;
     extensions := extensions quiet |}.

(** The same, but the engine never answers a request. *)
Definition mute : World :=
  {| readFile := readFile quiet;
     notified := notified quiet;
     replied := fun _ _ => Silent;
     timerWinsTie := timerWinsTie quiet;
     arrivals := arrivals quiet;
     HOME := HOME quiet;
     LPC_WORKSPACE_ROOT := LPC_WORKSPACE_ROOT quiet;
     pid := pid quiet;
     extensions := extensions quiet |}.

(** The server once [run] has completed in the cooperative
    environment. *)
Definition started : LPCMCPServer := state_of (run quiet constructor).

(** One Error-severity issue at line 2, character 3. *)
Definition undefinedSymbol : Lsp.Diagnostic :=
  {| Lsp.received :=
       JObject
         [("range",
           JObject
             [("start", JObject [("line", JNumber 2); ("character", JNumber 3)]);
              ("end", JObject [("line", JNumber 2); ("character", JNumber 9)])]);
          ("severity", JNumber 1);
          ("message", JString "undefined symbol")];
     Lsp.received_ok := eq_refl |}.

End Scenario.

(* ===================================================================== *)
(** ** The first version of the handler *)
(* ===================================================================== *)

(** [index.js] at the root of the repository: the [CallToolRequestSchema]
    handler before the file read, the [didOpen] notification and the
    diagnostics tool were added. It registers no notification handler and
    keeps no cache, so its requests leave the state alone. *)
Module Prototype.
Import Json Bridge.
Open Scope string_scope.

(** The names announced by its [ListToolsRequestSchema] handler. *)
Definition listTools : list string :=
  ["lpc_hover"; "lpc_definition"; "lpc_references"].

(** [this.lspConnection.sendRequest(method, params)]. *)
Definition sendRequest (method : string) (params : Lsp.RequestParams)
  : M json :=
  fun w s =>
    let e := SendRequest method params in
    match replied w method params with
    | Answer _ (Ok v) => (Return v, s, [e])
    | Answer _ (Err m) => (Throw m, s, [e])
    | Answer _ Unsettled | Silent => (Pending, s, [e])
    end.

Definition callTool (request : Mcp.CallToolRequest)
  : M Mcp.CallToolResult :=
  let name := Mcp.name request in
  this <- get_state ;;
  match lspConnection this with
  | None => throw "LSP not initialized"
  | Some _ =>
      match Mcp.arguments request with
      | None => throw undefinedArguments
      | Some args =>
          let uri := fileUri (Mcp.file args) in
          try_catch
            (if String.eqb name "lpc_hover" then
               result <- sendRequest "textDocument/hover"
                           (Lsp.PositionParams uri
                              (positionOf (Mcp.line args) (Mcp.character args))
                              None) ;;
               ret (textResult (stringify result))
             else if String.eqb name "lpc_definition" then
               result <- sendRequest "textDocument/definition"
                           (Lsp.PositionParams uri
                              (positionOf (Mcp.line args) (Mcp.character args))
                              None) ;;
               ret (textResult (stringify result))
             else if String.eqb name "lpc_references" then
               result <- sendRequest "textDocument/references"
                           (Lsp.PositionParams uri
                              (positionOf (Mcp.line args) (Mcp.character args))
                              (Some {| Lsp.includeDeclaration := true |})) ;;
               ret (textResult (stringify result))
             else throw ("Unknown tool: " ++ name))
            (fun message => ret (errorResult message))
      end
  end.

End Prototype.

(* ===================================================================== *)
(** ** Further concrete inputs *)
(* ===================================================================== *)

Module Cases.
Import JsText Json Bridge.
Open Scope string_scope.

Definition CRLF : jsstring := [13%N; 10%N].

(** One framed message as the engine writes it. *)
Definition frame : jsstring :=
  (of_string "Content-Length: 2" ++ CRLF ++ CRLF
   ++ of_string "{" ++ of_string "}")%list.

(** A banner line followed by a newline. *)
Definition banner : jsstring := (of_string "server ready" ++ [LF])%list.

(** Diagnostics for another document. *)
Definition hallPush : Lsp.PublishDiagnosticsParams :=
  {| Lsp.uri := "file:///m/hall.c";
     Lsp.diagnostics := [Scenario.undefinedSymbol] |}.

(** Diagnostics for the room: first one issue, later none. *)
Definition roomPush : Lsp.PublishDiagnosticsParams :=
  {| Lsp.uri := Scenario.roomUri;
     Lsp.diagnostics := [Scenario.undefinedSymbol] |}.

Definition roomCleared : Lsp.PublishDiagnosticsParams :=
  {| Lsp.uri := Scenario.roomUri; Lsp.diagnostics := [] |}.

(** The engine answers [initialize] with an error after 20 ms. *)
Definition refusing : World :=
  {| readFile := readFile Scenario.quiet;
     notified := notified Scenario.quiet;
     replied := fun _ _ => Answer 20 (Err "Unhandled method initialize");
     timerWinsTie := timerWinsTie Scenario.quiet;
     arrivals := arrivals Scenario.quiet;
     HOME := HOME Scenario.quiet;
     LPC_WORKSPACE_ROOT := LPC_WORKSPACE_ROOT Scenario.quiet;
     pid := pid Scenario.quiet;
     extensions := extensions Scenario.quiet |}.

(** No extension is installed, and a workspace root is configured. *)
Definition bare : World :=
  {| readFile := readFile Scenario.quiet;
     notified := notified Scenario.quiet;
     replied := replied Scenario.quiet;
     timerWinsTie := timerWinsTie Scenario.quiet;
     arrivals := arrivals Scenario.quiet;
     HOME := HOME Scenario.quiet;
     LPC_WORKSPACE_ROOT := Some "/m";
     pid := pid Scenario.quiet;
     extensions := [] |}.

End Cases.


(* ===================================================================== *)
(** * Properties *)
(* ===================================================================== *)

(** ** Lines of text *)

Section Lines.
Import JsText.

Lemma split_nonempty (s : jsstring) : split s ≠ [].
Proof.
  destruct s as [|c s]; simpl; [done|].
  destruct (c =? LF)%N; [done|]. by destruct (split s).
Qed.

Lemma join_split (s : jsstring) : join (split s) = s.
Proof.
  induction s as [|c s IH]; simpl; [done|].
  destruct (N.eqb_spec c LF) as [->|Hc].
  - pose proof (split_nonempty s) as Hne.
    destruct (split s) as [|l ls]; [done|]. simpl in *. by rewrite IH.
  - pose proof (split_nonempty s) as Hne.
    destruct (split s) as [|l ls]; [done|].
    destruct ls; simpl in *; by rewrite <- IH.
Qed.

Lemma split_no_LF (s : jsstring) : Forall (fun l => LF ∉ l) (split s).
Proof.
  induction s as [|c s IH]; simpl.
  - repeat constructor. by intros ?%elem_of_nil.
  - destruct (N.eqb_spec c LF) as [->|Hc].
    + constructor; [by intros ?%elem_of_nil | done].
    + pose proof (split_nonempty s) as Hne.
      destruct (split s) as [|l ls]; [done|].
      apply Forall_cons in IH as [Hl Hls]. constructor; [|done].
      intros [Heq|?]%elem_of_cons; [congruence | done].
Qed.

Lemma split_line (l : jsstring) : LF ∉ l → split l = [l].
Proof.
  induction l as [|c l IH]; simpl; [done|]. intros Hnot.
  destruct (N.eqb_spec c LF) as [->|Hc].
  - exfalso. apply Hnot. by left.
  - rewrite IH; [done|]. intros ?. apply Hnot. by right.
Qed.

Lemma split_app_LF (l r : jsstring) :
  LF ∉ l → split (l ++ LF :: r) = l :: split r.
Proof.
  induction l as [|c l IH]; simpl; [done|]. intros Hnot.
  destruct (N.eqb_spec c LF) as [->|Hc].
  - exfalso. apply Hnot. by left.
  - rewrite IH; [done|]. intros ?. apply Hnot. by right.
Qed.

Lemma split_join (ls : list jsstring) :
  ls ≠ [] → Forall (fun l => LF ∉ l) ls → split (join ls) = ls.
Proof.
  induction ls as [|l ls IH]; [done|]. intros _ Hall.
  inversion Hall as [|? ? Hl Hls]; subst.
  destruct ls as [|l' ls].
  - simpl. by apply split_line.
  - change (join (l :: l' :: ls)) with (l ++ LF :: join (l' :: ls)).
    rewrite split_app_LF by done. by rewrite IH.
Qed.

Lemma startsWith_trimEnd (p t : jsstring) :
  endsSolid p = true → startsWith (trimEnd t) p = startsWith t p.
Proof.
  revert t. induction p as [|a p IH]; [done|]. intros t Hp.
  destruct t as [|b t]; [done|].
  destruct p as [|a' p].
  - change (endsSolid [a]) with (negb (isWhiteSpace a)) in Hp.
    change (startsWith (b :: t) [a]) with ((b =? a)%N && true).
    simpl trimEnd. destruct (trimEnd t) eqn:Ht; [|done].
    destruct (isWhiteSpace b) eqn:Hb; [|done].
    destruct (N.eqb_spec b a) as [Heq|]; [|done].
    subst b. by rewrite Hb in Hp.
  - assert (endsSolid (a' :: p) = true) as Hp' by done.
    specialize (IH t Hp').
    change (startsWith (b :: t) (a :: a' :: p))
      with ((b =? a)%N && startsWith t (a' :: p)).
    rewrite <- IH. simpl trimEnd.
    destruct (trimEnd t) eqn:Ht.
    + destruct (isWhiteSpace b); simpl; by rewrite ?andb_false_r.
    + done.
Qed.

Lemma trimStart_head (s : jsstring) :
  match trimStart s with
  | [] => True
  | c :: _ => isWhiteSpace c = false
  end.
Proof.
  induction s as [|c s IH]; simpl; [done|].
  by destruct (isWhiteSpace c) eqn:Hc.
Qed.

Lemma isEmpty_trim (s : jsstring) : isEmpty (trim s) = isEmpty (trimStart s).
Proof.
  unfold trim. pose proof (trimStart_head s) as Hh.
  destruct (trimStart s) as [|c t]; [done|]. simpl.
  destruct (trimEnd t); [by rewrite Hh|done].
Qed.

(** The test of the filter only looks past the leading white space. *)
Lemma keep_trimStart (line : jsstring) :
  CleanStream.keep line =
    startsWith (trimStart line) CleanStream.contentLength
    || startsWith (trimStart line) CleanStream.openBrace
    || isEmpty (trimStart line).
Proof.
  unfold CleanStream.keep. cbv zeta. rewrite isEmpty_trim. unfold trim.
  by rewrite !startsWith_trimEnd.
Qed.

Lemma emitted_filtered (data : jsstring) :
  CleanStream.emitted data = CleanStream.filtered data.
Proof.
  unfold CleanStream.emitted, CleanStream.transform.
  by destruct (CleanStream.filtered data).
Qed.

End Lines.

(** ** The filter *)

Section Filter.
Import JsText CleanStream.

Lemma filter_sublist_of {A} (f : A → bool) (l : list A) :
  List.filter f l `sublist_of` l.
Proof.
  induction l as [|x l IH]; simpl; [done|].
  destruct (f x); by constructor.
Qed.

Lemma filter_no_LF (f : jsstring → bool) (data : jsstring) :
  Forall (fun l => LF ∉ l) (List.filter f (split data)).
Proof.
  pose proof (split_no_LF data) as Hall.
  induction (split data) as [|l ls IH]; simpl; [done|].
  apply Forall_cons in Hall as [Hl Hls].
  destruct (f l); [constructor|]; auto.
Qed.

(** C2, as stated, fails: the chunk [" {x"] is one line that is not
    blank and begins with a space, so the stated classification drops
    it, yet the filter passes it on untouched. *)
Lemma C2_leading_space_survives :
  let data := of_string " {x" in
  split data = [data]
  ∧ spec_keep data = false
  ∧ spec_filtered data = []
  ∧ emitted data = data
  ∧ emitted data ≠ spec_filtered data.
Proof. vm_compute. repeat split; congruence. Qed.

(** C2, amended: for every chunk the emitted text is the kept lines
    joined by newlines; a line is kept exactly when, past its leading
    white space, it is empty or begins with [Content-Length:] or with an
    open brace; kept lines are passed on unchanged and in their original
    order, all other lines are dropped, and when no line is kept nothing
    is emitted. *)
Theorem C2_filter_keeps_lines_by_trimmed_prefix (data : jsstring) :
  emitted data = join (List.filter keep (split data))
  ∧ split (emitted data)
    = match List.filter keep (split data) with
      | [] => [[]]
      | kept => kept
      end
  ∧ List.filter keep (split data) `sublist_of` split data
  ∧ (∀ line : jsstring,
       keep line =
         isEmpty (trimStart line)
         || startsWith (trimStart line) contentLength
         || startsWith (trimStart line) openBrace).
Proof.
  split; [apply emitted_filtered|].
  split.
  - rewrite emitted_filtered. unfold filtered.
    pose proof (filter_no_LF keep data) as Hno.
    destruct (List.filter keep (split data)) as [|l ls] eqn:Hk; [done|].
    by apply split_join.
  - split; [apply filter_sublist_of|].
    intros line. rewrite keep_trimStart.
    destruct (startsWith (trimStart line) contentLength),
      (startsWith (trimStart line) openBrace),
      (isEmpty (trimStart line)); done.
Qed.

End Filter.

(** ** The tool handlers *)

Section Handlers.
Import Json Bridge.
Open Scope string_scope.

Lemma deliver_connection pushes s :
  lspConnection (deliver pushes s) = lspConnection s.
Proof.
  unfold deliver. destruct (lspConnection s) as [c|] eqn:Hc; [|done].
  revert s Hc. induction pushes as [|p ps IH]; intros s Hc; simpl; [done|].
  by rewrite IH.
Qed.

(** The callbacks of [setupTools] run the same steps as the matching
    [switch] branch. *)
Lemma registered_callTool name args f w s :
  Tools.registered name = Some f →
  f args w s = callTool {| Mcp.name := name; Mcp.arguments := Some args |} w s.
Proof.
  unfold Tools.registered, callTool. simpl.
  destruct (String.eqb name "lpc_hover") eqn:H1;
    [intros [= <-]; reflexivity|].
  destruct (String.eqb name "lpc_definition") eqn:H2;
    [intros [= <-]; reflexivity|].
  destruct (String.eqb name "lpc_references") eqn:H3;
    [intros [= <-]; reflexivity|].
  destruct (String.eqb name "lpc_diagnostics") eqn:H4;
    [intros [= <-]; reflexivity|].
  done.
Qed.

Lemma operation_callTool name args h w s :
  operation name args h →
  h w s = callTool {| Mcp.name := name; Mcp.arguments := Some args |} w s.
Proof. intros [|f Hf]; [done|]. by apply registered_callTool. Qed.

Ltac run_handler :=
  unfold callTool, bind, try_catch, get_state, fs_readFile, sendNotification,
    sendRequest, sleep, await, ret, throw, result_of, state_of, trace_of;
  simpl.

Lemma not_listed name :
  name ∉ listTools →
  String.eqb name "lpc_hover" = false
  ∧ String.eqb name "lpc_definition" = false
  ∧ String.eqb name "lpc_references" = false
  ∧ String.eqb name "lpc_diagnostics" = false.
Proof.
  unfold listTools. intros Hn.
  repeat split; apply String.eqb_neq; intros ->; apply Hn; set_solver.
Qed.

Ltac by_cases name w args :=
  destruct (readFile w (Mcp.file args) "utf-8") as [?content|?e|] eqn:?Hread;
    [destruct (notified w "textDocument/didOpen"
              (didOpen (fileUri (Mcp.file args)) content)) as [[]|?e|] eqn:?Hopen;
    [destruct (String.eqb name "lpc_hover") eqn:?Hname;
    [|destruct (String.eqb name "lpc_definition") eqn:?Hname;
      [|destruct (String.eqb name "lpc_references") eqn:?Hname;
        [|destruct (String.eqb name "lpc_diagnostics") eqn:?Hname]]]| |]| |];
  try match goal with
      | |- context [replied ?w0 ?meth ?ps] =>
          destruct (replied w0 meth ps) as [?t [?v|?e|]|] eqn:?Hrep
      end; simpl.

Ltac in_trace H :=
  repeat (apply elem_of_cons in H as [H|H]; [try discriminate|]);
  try (by apply elem_of_nil in H).

(** With a connection in place a call that carries its arguments never
    throws. *)
Lemma callTool_never_throws name args w s m :
  ready s →
  result_of (callTool {| Mcp.name := name; Mcp.arguments := Some args |} w s)
  ≠ Throw m.
Proof.
  intros [c Hc]. run_handler. rewrite Hc.
  by_cases name w args; done.
Qed.

(** C3, as stated, fails on two counts. After a start-up whose handshake
    timed out the session never became ready, yet the connection object
    exists, the guard lets a hover call through and the call reaches the
    engine and returns a success result. And where the guard does refuse
    (no connection object), the handler does not return an error result:
    it throws. *)
Lemma C3_guard_passes_after_failed_handshake :
  let hover := callTool {| Mcp.name := "lpc_hover";
                           Mcp.arguments := Some Scenario.roomArgs |} in
  let failed := state_of (run Scenario.mute constructor) in
  result_of (run Scenario.mute constructor) = Throw "LSP init timeout"
  ∧ result_of (hover Scenario.quiet failed)
    = Return {| Mcp.content := [{| Mcp.type := "text"; Mcp.text := "null" |}];
                Mcp.isError := false |}
  ∧ SendRequest "textDocument/hover"
      (Lsp.PositionParams "file:///m/room.c"
         {| Lsp.line := 4; Lsp.character := 10 |} None)
    ∈ trace_of (hover Scenario.quiet failed)
  ∧ result_of (hover Scenario.quiet constructor) = Throw "LSP not initialized"
  ∧ (∀ r, result_of (hover Scenario.quiet constructor) ≠ Return r).
Proof.
  cbv zeta. split; [reflexivity|]. split; [reflexivity|].
  split; [vm_compute; do 2 right; by left|].
  split; [reflexivity|]. intros r. vm_compute. discriminate.
Qed.

(** C3, amended: a tool invoked while no connection object exists
    ([lspConnection] is null) fails by throwing [LSP not initialized]
    out of the handler, whatever the call carries; the file is not read,
    nothing is sent to the engine and the state is unchanged. Once the
    connection object exists the guard never refuses a call, whether or
    not the handshake has completed. *)
Theorem C3_guard_refuses_exactly_without_connection request name args h w s :
  operation name args h →
  (lspConnection s = None →
   callTool request w s = (Throw "LSP not initialized", s, [])
   ∧ h w s = (Throw "LSP not initialized", s, []))
  ∧ (ready s →
     result_of (callTool request w s) ≠ Throw "LSP not initialized"
     ∧ result_of (h w s) ≠ Throw "LSP not initialized").
Proof.
  intros Hop. rewrite (operation_callTool _ _ _ _ _ Hop). split.
  - intros Hs. run_handler. by rewrite Hs.
  - intros Hready. split; [|by apply callTool_never_throws].
    destruct request as [name' [args'|]]; [by apply callTool_never_throws|].
    destruct Hready as [c Hc]. run_handler. by rewrite Hc.
Qed.

Lemma C3_guard_witness :
  callTool {| Mcp.name := "lpc_hover";
              Mcp.arguments := Some Scenario.roomArgs |}
    Scenario.quiet constructor
  = (Throw "LSP not initialized", constructor, []).
Proof.
  apply (proj1 (C3_guard_refuses_exactly_without_connection
                  {| Mcp.name := "lpc_hover";
                     Mcp.arguments := Some Scenario.roomArgs |}
                  "lpc_hover" Scenario.roomArgs _ Scenario.quiet constructor
                  (op_callTool _ _))
           eq_refl).
Defined.





Lemma callTool_connection req w s :
  lspConnection (state_of (callTool req w s)) = lspConnection s.
Proof.
  destruct req as [name [args|]]; run_handler;
    (destruct (lspConnection s) as [c|] eqn:Hc; [|done]); [|done].
  by_cases name w args; by rewrite ?deliver_connection.
Qed.



Lemma publish_other pushes s uri :
  (∀ p, p ∈ pushes → Lsp.uri p ≠ uri) →
  diagnosticsCache
    (fold_left (fun s p => onPublishDiagnostics p s) pushes s) !! uri
  = diagnosticsCache s !! uri.
Proof.
  revert s. induction pushes as [|p ps IH]; intros s Hne; simpl; [done|].
  rewrite IH by (intros q Hq; apply Hne; by right).
  simpl. unfold cache_set. apply lookup_insert_ne. apply Hne. by left.
Qed.


Lemma started_ready : ready Scenario.started.
Proof. vm_compute. eauto. Qed.

(** C10: the only request a references call sends is
    [textDocument/references] for the document and position of the call
    with [context.includeDeclaration] true, and it is sent, third in the
    trace, whenever the file was read and the open notification
    written. *)
Theorem C10_references_include_declaration args h w s :
  operation "lpc_references" args h →
  let file := Mcp.file args in
  let uri := fileUri file in
  let request :=
    SendRequest "textDocument/references"
      (Lsp.PositionParams uri
         (positionOf (Mcp.line args) (Mcp.character args))
         (Some {| Lsp.includeDeclaration := true |})) in
  (∀ e, e ∈ trace_of (h w s) → isRequest e = true → e = request)
  ∧ (ready s →
     ∀ content,
       readFile w file "utf-8" = Ok content →
       notified w "textDocument/didOpen" (didOpen uri content) = Ok tt →
       trace_of (h w s)
       = [FsReadFile file "utf-8";
          SendNotification "textDocument/didOpen" (didOpen uri content);
          request]).
Proof.
  intros Hop. cbv zeta.
  rewrite (operation_callTool _ _ _ _ _ Hop).
  run_handler.
  destruct (lspConnection s) as [c|] eqn:Hc.
  2:{ simpl. split; [by intros e ?%elem_of_nil|]. intros [? ?]; congruence. }
  by_cases "lpc_references" w args.
  all: split; [intros ? Hin ?; in_trace Hin; by subst|].
  all: intros; simplify_eq; try done; congruence.
Qed.

Lemma C10_references_witness :
  trace_of (callTool {| Mcp.name := "lpc_references";
                        Mcp.arguments := Some Scenario.roomArgs |}
              Scenario.quiet Scenario.started)
  = [FsReadFile "/m/room.c" "utf-8";
     SendNotification "textDocument/didOpen"
       (didOpen Scenario.roomUri "int x;");
     SendRequest "textDocument/references"
       (Lsp.PositionParams Scenario.roomUri (positionOf 4 10)
          (Some {| Lsp.includeDeclaration := true |}))].
Proof.
  apply (proj2 (C10_references_include_declaration Scenario.roomArgs _
                  Scenario.quiet Scenario.started (op_callTool _ _)));
    [apply started_ready | reflexivity | reflexivity].
Defined.

(** C4, as stated, fails: two hover calls in a row on the same unchanged
    file each send a document-open notification with version 1, so the
    second version is not greater than the first. *)
Lemma C4_reopen_same_version :
  let call := callTool {| Mcp.name := "lpc_hover";
                          Mcp.arguments := Some Scenario.roomArgs |} in
  let first := call Scenario.quiet Scenario.started in
  let second := call Scenario.quiet (state_of first) in
  openVersions (trace_of first) = [1]
  ∧ openVersions (trace_of second) = [1]
  ∧ ¬ (∀ v1 v2, v1 ∈ openVersions (trace_of first) →
                v2 ∈ openVersions (trace_of second) → v1 < v2).
Proof.
  cbv zeta. split; [reflexivity|]. split; [reflexivity|].
  intros H. specialize (H 1 1).
  assert (1 < 1) as Hlt; [|lia].
  apply H; vm_compute; by left.
Qed.

(** C4, amended: every document-open notification that a tool call
    sends carries the constant version 1, on a first open and on every
    re-open alike; a call that gets to read the file sends exactly one
    such notification. *)
Theorem C4_open_version_is_always_one name args h w s :
  operation name args h →
  Forall (fun v => v = 1) (openVersions (trace_of (h w s)))
  ∧ (ready s →
     ∀ content,
       readFile w (Mcp.file args) "utf-8" = Ok content →
       openVersions (trace_of (h w s)) = [1]).
Proof.
  intros Hop.
  rewrite (operation_callTool _ _ _ _ _ Hop).
  run_handler.
  destruct (lspConnection s) as [c|] eqn:Hc.
  2:{ simpl. split; [constructor|]. intros [? ?]; congruence. }
  by_cases name w args.
  all: split; [repeat constructor|].
  all: intros; simplify_eq; try done.
Qed.

Lemma C4_open_version_witness :
  openVersions
    (trace_of (callTool {| Mcp.name := "lpc_hover";
                           Mcp.arguments := Some Scenario.roomArgs |}
                 Scenario.quiet Scenario.started))
  = [1].
Proof.
  apply (proj2 (C4_open_version_is_always_one "lpc_hover" Scenario.roomArgs _
                  Scenario.quiet Scenario.started (op_callTool _ _))
           started_ready "int x;").
  reflexivity.
Defined.




(** C5: right after the diagnostics handler stored a push, reading the
    cache for the pushed identity gives exactly the pushed sequence,
    whatever was stored before; an identity for which no push was ever
    handled reads as the empty sequence. *)
Theorem C5_cache_set_then_get (s : LPCMCPServer)
    (params : Lsp.PublishDiagnosticsParams) (uri : string)
    (pushes : list Lsp.PublishDiagnosticsParams) :
  cache_get (Lsp.uri params)
    (diagnosticsCache (onPublishDiagnostics params s))
  = Lsp.diagnostics params
  ∧ ((∀ p, p ∈ pushes → Lsp.uri p ≠ uri) →
     cache_get uri
       (diagnosticsCache
          (fold_left (fun s p => onPublishDiagnostics p s) pushes constructor))
     = []).
Proof.
  split.
  - unfold cache_get, onPublishDiagnostics, cache_set. simpl.
    by rewrite lookup_insert_eq.
  - intros Hne. unfold cache_get. rewrite publish_other by done.
    simpl. by rewrite lookup_empty.
Qed.

Lemma C5_cache_never_set_witness :
  cache_get Scenario.roomUri
    (diagnosticsCache
       (fold_left (fun s p => onPublishDiagnostics p s)
          [{| Lsp.uri := "file:///m/hall.c";
              Lsp.diagnostics := [Scenario.undefinedSymbol] |}]
          constructor))
  = [].
Proof.
  apply (proj2 (C5_cache_set_then_get constructor
                  {| Lsp.uri := "file:///m/hall.c"; Lsp.diagnostics := [] |}
                  Scenario.roomUri _)).
  intros p Hp. apply list_elem_of_singleton in Hp. subst p.
  vm_compute. discriminate.
Defined.




Lemma received_message (issue : Lsp.Diagnostic) :
  Lsp.get "message" (Lsp.received issue)
  = Some (JString (Lsp.message issue)).
Proof.
  destruct issue as [o Hok]. unfold Lsp.message. simpl.
  unfold Lsp.isDiagnostic in Hok.
  destruct (Lsp.get "message" o) as [[]|]; try done.
  all: by rewrite andb_false_r in Hok.
Qed.

Lemma received_severity (issue : Lsp.Diagnostic) :
  Lsp.get "severity" (Lsp.received issue)
  = JNumber <$> Lsp.severity issue.
Proof.
  destruct issue as [o Hok]. unfold Lsp.severity. simpl.
  unfold Lsp.isDiagnostic in Hok.
  destruct (Lsp.get "severity" o) as [[]|]; try done.
  all: by rewrite andb_false_r in Hok.
Qed.



End Handlers.

(** ** Start-up *)

Section Startup.
Import Json Bridge.
Open Scope string_scope.

Ltac run_startup :=
  unfold main, run, run_latest, startLSP, startLSP_latest, connectEngine,
    handshake, serverConnect, spawn, listen, ask, put_state,
    bind, try_catch, get_state, sendNotification, await, ret, throw,
    result_of, state_of, trace_of, initTimeout.

Ltac in_trace H :=
  repeat (apply elem_of_cons in H as [H|H]; [try discriminate|]);
  try (by apply elem_of_nil in H).

Lemma race_lost method params ms message w s :
  replied w method params = Silent
  ∨ (∃ after r, replied w method params = Answer after r ∧ ms < after) →
  race_with_timeout method params ms message w s
  = (Throw message,
     deliver (arrivals w (SendRequest method params)) s,
     [SendRequest method params; SetTimeout ms]).
Proof.
  unfold race_with_timeout.
  intros [->|(after & r & -> & Hlt)]; [done|].
  apply Z.ltb_lt in Hlt. by rewrite Hlt.
Qed.

(** An answer that beats the timer lets the handshake complete and the
    tool server connect. *)
Lemma run_connects_when_answered_in_time w s after v :
  replied w "initialize" (Lsp.InitializeParams (pid w) (rootUri w))
  = Answer after (Ok v) →
  after < 5000 →
  notified w "initialized" Lsp.EmptyParams = Ok tt →
  result_of (run w s) = Return tt
  ∧ last (trace_of (run w s)) = Some ServerConnect.
Proof.
  intros Hrep Hlt Hnote.
  run_startup. unfold race_with_timeout. rewrite Hrep.
  assert ((5000 <? after)%Z = false) as -> by lia.
  assert ((after =? 5000)%Z = false) as -> by lia.
  simpl. by rewrite Hnote.
Qed.

(** The tool server is connected, and so a tool can be invoked, only
    once the handshake is complete and the connection is in place. *)
Lemma tools_served_only_after_handshake w s :
  ServerConnect ∈ trace_of (run w s) →
  SendNotification "initialized" Lsp.EmptyParams ∈ trace_of (run w s)
  ∧ result_of (startLSP w s) = Return tt
  ∧ ready (state_of (run w s)).
Proof.
  run_startup. unfold race_with_timeout.
  destruct (replied w "initialize" _) as [after [v|e|]|]; simpl;
    try destruct ((5000 <? after)%Z || (after =? 5000)%Z && timerWinsTie w);
    simpl;
    try destruct (notified w "initialized" Lsp.EmptyParams) as [[]|e'|];
    simpl; intros Hin; try (by in_trace Hin).
  split; [|split; [done|]].
  - do 4 right. by left.
  - unfold ready. rewrite !deliver_connection. simpl. eauto.
Qed.

(** C8: [initialize] is sent together with a 5000 ms timer; when the
    engine stays silent or answers later than that, [startLSP] and [run]
    fail with [LSP init timeout], exactly one [initialize] request has
    been sent, the tool server is never connected, and the top level
    only logs the failure. *)
Theorem C8_handshake_timeout_is_fatal w s :
  let request := Lsp.InitializeParams (pid w) (rootUri w) in
  let lspPath := path_join (HOME w) serverScript in
  replied w "initialize" request = Silent
  ∨ (∃ after r, replied w "initialize" request = Answer after r ∧ 5000 < after) →
  result_of (startLSP w s) = Throw "LSP init timeout"
  ∧ result_of (run w s) = Throw "LSP init timeout"
  ∧ trace_of (run w s)
    = [Spawn "node" [lspPath; "--stdio"]; Listen;
       SendRequest "initialize" request; SetTimeout 5000]
  ∧ (ServerConnect ∉ trace_of (run w s))
  ∧ length (List.filter isInitialize (trace_of (run w s))) = 1%nat
  ∧ main w s = (Return tt, state_of (run w s), trace_of (run w s))
  ∧ (∀ latest,
       latestExtension (extensions w) = Some latest →
       result_of (run_latest w s) = Throw "LSP init timeout"
       ∧ (ServerConnect ∉ trace_of (run_latest w s))
       ∧ length (List.filter isInitialize (trace_of (run_latest w s))) = 1%nat).
Proof.
  cbv zeta. intros Hlate.
  assert (∀ s', race_with_timeout "initialize"
                  (Lsp.InitializeParams (pid w) (rootUri w)) 5000
                  "LSP init timeout" w s'
                = (Throw "LSP init timeout",
                   deliver (arrivals w (SendRequest "initialize"
                      (Lsp.InitializeParams (pid w) (rootUri w)))) s',
                   [SendRequest "initialize"
                      (Lsp.InitializeParams (pid w) (rootUri w));
                    SetTimeout 5000])) as Hrace
    by (intros; by apply race_lost).
  repeat match goal with |- _ ∧ _ => split end.
  7: intros latest Hlatest; repeat split.
  1-3, 5-6: run_startup; rewrite Hrace; reflexivity.
  - run_startup. rewrite Hrace. simpl. intros Hin. in_trace Hin.
  - run_startup. rewrite Hlatest, Hrace. reflexivity.
  - run_startup. rewrite Hlatest, Hrace. simpl. intros Hin. in_trace Hin.
  - run_startup. rewrite Hlatest, Hrace. reflexivity.
Qed.

Lemma C8_handshake_timeout_witness :
  result_of (run Scenario.mute constructor) = Throw "LSP init timeout".
Proof.
  apply (C8_handshake_timeout_is_fatal Scenario.mute constructor).
  left. reflexivity.
Defined.

End Startup.

(** ** More on the filter *)

Section FilterMore.
Import JsText CleanStream.

Lemma filter_keep_all (ls : list jsstring) :
  Forall (fun l => keep l = true) ls → List.filter keep ls = ls.
Proof.
  induction 1 as [|l ls Hl _ IH]; simpl; [done|]. by rewrite Hl, IH.
Qed.

Lemma filter_keep_kept (ls : list jsstring) :
  Forall (fun l => keep l = true) (List.filter keep ls).
Proof.
  induction ls as [|l ls IH]; simpl; [done|].
  destruct (keep l) eqn:Hl; [by constructor | done].
Qed.

Lemma join_nil_inv (ls : list jsstring) :
  join ls = [] ↔ ls = [] ∨ ls = [[]].
Proof.
  split.
  - destruct ls as [|l [|l' ls]]; simpl; [by left | intros ->; by right |].
    intros H. by apply app_eq_nil in H as [_ ?].
  - by intros [-> | ->].
Qed.

Lemma split_app_line (x y : jsstring) :
  split (x ++ LF :: y) = split x ++ split y.
Proof.
  induction x as [|c x IH]; simpl; [done|].
  destruct (c =? LF)%N; [by rewrite IH|].
  rewrite IH. pose proof (split_nonempty x) as Hne.
  by destruct (split x).
Qed.

Lemma join_app (l1 l2 : list jsstring) :
  l1 ≠ [] → l2 ≠ [] → join (l1 ++ l2) = join l1 ++ LF :: join l2.
Proof.
  intros H1 H2. induction l1 as [|a l1 IH]; [done|].
  destruct l1 as [|b l1].
  - simpl. by destruct l2.
  - change (join ((a :: b :: l1) ++ l2)) with (a ++ LF :: join ((b :: l1) ++ l2)).
    rewrite IH by done. simpl. by rewrite <- app_assoc.
Qed.

Lemma filter_app_keep (l1 l2 : list jsstring) :
  List.filter keep (l1 ++ l2) = List.filter keep l1 ++ List.filter keep l2.
Proof. apply List.filter_app. Qed.

Lemma join_sublist (ls' ls : list jsstring) :
  ls' `sublist_of` ls → join ls' `sublist_of` join ls.
Proof.
  induction 1 as [|l ls' ls Hsub IH|l ls' ls Hsub IH].
  - done.
  - destruct ls' as [|a ls'], ls as [|b ls]; simpl in *.
    + done.
    + apply sublist_inserts_r. done.
    + by apply sublist_nil_r in Hsub.
    + apply sublist_app; [done|]. by apply sublist_skip.
  - destruct ls as [|b ls].
    + apply sublist_nil_r in Hsub. subst. simpl. apply sublist_nil_l.
    + change (join (l :: b :: ls)) with (l ++ LF :: join (b :: ls)).
      apply sublist_inserts_l. by apply sublist_cons.
Qed.

(** Filtering is idempotent: text that came out of the filter passes a
    second filter unchanged. *)
Theorem filter_idempotent (data : jsstring) :
  emitted (emitted data) = emitted data.
Proof.
  rewrite !emitted_filtered. unfold filtered.
  pose proof (filter_no_LF keep data) as Hno.
  pose proof (filter_keep_kept (split data)) as Hk.
  destruct (List.filter keep (split data)) as [|l ls] eqn:E; [done|].
  rewrite split_join by done. by rewrite filter_keep_all.
Qed.

(** A chunk all of whose lines are kept is emitted exactly as it came
    in, and is pushed whenever it is not empty. *)
Theorem filter_passes_clean_chunk (data : jsstring) :
  Forall (fun line => keep line = true) (split data) →
  emitted data = data ∧ (data ≠ [] → transform data = Some data).
Proof.
  intros Hall.
  assert (filtered data = data) as Hf.
  { unfold filtered. by rewrite filter_keep_all, join_split. }
  split; [by rewrite emitted_filtered|].
  unfold transform. rewrite Hf. by destruct data.
Qed.

Lemma filter_passes_clean_chunk_witness :
  emitted Cases.frame = Cases.frame
  ∧ transform Cases.frame = Some Cases.frame.
Proof.
  assert (Forall (fun line => keep line = true) (split Cases.frame)) as Hall
    by (vm_compute; repeat constructor).
  destruct (filter_passes_clean_chunk Cases.frame Hall) as [He Ht].
  split; [exact He|]. apply Ht. vm_compute. discriminate.
Defined.

(** Nothing is pushed for a chunk exactly when no line of it is kept, or
    when the only kept line is one empty line. *)
Theorem filter_pushes_nothing_iff (data : jsstring) :
  transform data = None
  ↔ List.filter keep (split data) = [] ∨ List.filter keep (split data) = [[]].
Proof.
  rewrite <- join_nil_inv. unfold transform, filtered.
  destruct (join _); simpl; split; done.
Qed.

(** A stream cut right after a newline is filtered the same way in two
    chunks as in one, provided the second chunk keeps at least one
    line. *)
Theorem filter_chunks_at_line_end (x y : jsstring) :
  List.filter keep (split y) ≠ [] →
  emitted (x ++ LF :: y) = emitted (x ++ [LF]) ++ emitted y.
Proof.
  intros Hy. rewrite !emitted_filtered. unfold filtered.
  rewrite !split_app_line, !filter_app_keep.
  change (List.filter keep (split [])) with [[] : jsstring].
  destruct (List.filter keep (split x)) as [|l ls] eqn:Ex.
  - done.
  - rewrite !join_app by done. simpl join at 3. by rewrite <- app_assoc.
Qed.

Lemma filter_chunks_at_line_end_witness :
  emitted (Cases.banner ++ Cases.frame)
  = emitted Cases.banner ++ emitted Cases.frame.
Proof.
  apply (filter_chunks_at_line_end (of_string "server ready") Cases.frame).
  vm_compute. discriminate.
Defined.

(** The filter only deletes: what it emits is a subsequence of the
    chunk's code units; it never inserts or reorders anything. *)
Theorem filter_only_deletes (data : jsstring) :
  emitted data `sublist_of` data.
Proof.
  rewrite emitted_filtered. unfold filtered.
  rewrite <- (join_split data) at 2.
  apply join_sublist, filter_sublist_of.
Qed.

End FilterMore.

(** ** More on the cache and the tool handlers *)

Section HandlersMore.
Import Json Bridge.
Open Scope string_scope.

Ltac run_handler :=
  unfold callTool, bind, try_catch, get_state, fs_readFile, sendNotification,
    sendRequest, sleep, await, ret, throw, result_of, state_of, trace_of;
  simpl.

Ltac by_cases name w args :=
  destruct (readFile w (Mcp.file args) "utf-8") as [?content|?e|] eqn:?Hread;
    [destruct (notified w "textDocument/didOpen"
              (didOpen (fileUri (Mcp.file args)) content)) as [[]|?e|] eqn:?Hopen;
    [destruct (String.eqb name "lpc_hover") eqn:?Hname;
    [|destruct (String.eqb name "lpc_definition") eqn:?Hname;
      [|destruct (String.eqb name "lpc_references") eqn:?Hname;
        [|destruct (String.eqb name "lpc_diagnostics") eqn:?Hname]]]| |]| |];
  try match goal with
      | |- context [replied ?w0 ?meth ?ps] =>
          destruct (replied w0 meth ps) as [?t [?v|?e|]|] eqn:?Hrep
      end; simpl.

Ltac in_trace H :=
  repeat (apply elem_of_cons in H as [H|H]; [try discriminate|]);
  try (by apply elem_of_nil in H).

Lemma publish_process pushes s :
  lspProcess (fold_left (fun s p => onPublishDiagnostics p s) pushes s)
  = lspProcess s.
Proof.
  revert s. induction pushes as [|p ps IH]; intros s; simpl; [done|].
  by rewrite IH.
Qed.

Lemma deliver_process pushes s : lspProcess (deliver pushes s) = lspProcess s.
Proof. unfold deliver. destruct (lspConnection s); [apply publish_process|done]. Qed.

Lemma publish_keeps pushes s uri :
  is_Some (diagnosticsCache s !! uri) →
  is_Some (diagnosticsCache
             (fold_left (fun s p => onPublishDiagnostics p s) pushes s) !! uri).
Proof.
  revert s. induction pushes as [|p ps IH]; intros s Hs; simpl; [done|].
  apply IH. simpl. unfold cache_set.
  destruct (decide (Lsp.uri p = uri)) as [->|Hne].
  - rewrite lookup_insert_eq. eauto.
  - by rewrite lookup_insert_ne.
Qed.

Lemma deliver_keeps pushes s uri :
  is_Some (diagnosticsCache s !! uri) →
  is_Some (diagnosticsCache (deliver pushes s) !! uri).
Proof. unfold deliver. destruct (lspConnection s); [apply publish_keeps|done]. Qed.

Lemma deliver_nil s : deliver [] s = s.
Proof. unfold deliver. by destruct (lspConnection s). Qed.

(** The latest push for a document wins: after any sequence of pushes,
    the cache holds for a document exactly the diagnostics of the last
    push that named it, whatever was pushed before and whatever other
    documents were pushed after. *)
Theorem cache_latest_push_wins pre p post s :
  ready s →
  (∀ q, q ∈ post → Lsp.uri q ≠ Lsp.uri p) →
  cache_get (Lsp.uri p) (diagnosticsCache (deliver (pre ++ p :: post) s))
  = Lsp.diagnostics p.
Proof.
  intros [c Hc] Hpost. unfold deliver. rewrite Hc.
  rewrite fold_left_app. simpl. unfold cache_get.
  rewrite publish_other by done. simpl. unfold cache_set.
  by rewrite lookup_insert_eq.
Qed.

Lemma cache_latest_push_wins_witness :
  cache_get Scenario.roomUri
    (diagnosticsCache
       (deliver [Cases.roomPush; Cases.roomCleared; Cases.hallPush]
          Scenario.started))
  = [].
Proof.
  apply (cache_latest_push_wins [Cases.roomPush] Cases.roomCleared
           [Cases.hallPush] Scenario.started started_ready).
  intros q Hq. apply list_elem_of_singleton in Hq. subst q.
  vm_compute. discriminate.
Defined.

(** A tool call never touches the child process or the connection, and
    it never removes a document's entry from the diagnostics cache. *)
Theorem tool_call_keeps_session name args h w s :
  operation name args h →
  lspProcess (state_of (h w s)) = lspProcess s
  ∧ lspConnection (state_of (h w s)) = lspConnection s
  ∧ (∀ uri, is_Some (diagnosticsCache s !! uri) →
            is_Some (diagnosticsCache (state_of (h w s)) !! uri)).
Proof.
  intros Hop. rewrite (operation_callTool _ _ _ _ _ Hop).
  split; [|split; [apply callTool_connection|]].
  - run_handler. destruct (lspConnection s) as [c|] eqn:Hc; [|done].
    by_cases name w args; by rewrite ?deliver_process.
  - intros uri Hin. run_handler.
    destruct (lspConnection s) as [c|] eqn:Hc; [|done].
    by_cases name w args; by repeat apply deliver_keeps.
Qed.

Lemma tool_call_keeps_session_witness :
  lspConnection
    (state_of (callTool {| Mcp.name := "lpc_hover";
                           Mcp.arguments := Some Scenario.roomArgs |}
                 Scenario.unreadable Scenario.started))
  = lspConnection Scenario.started.
Proof.
  apply (tool_call_keeps_session "lpc_hover" Scenario.roomArgs _
           Scenario.unreadable Scenario.started (op_callTool _ _)).
Defined.

(** When the engine pushes nothing during a tool call, the call leaves
    the whole server state as it found it. *)
Theorem tool_call_without_pushes_keeps_state name args h w s :
  operation name args h →
  (∀ e, arrivals w e = []) →
  state_of (h w s) = s.
Proof.
  intros Hop Hq. rewrite (operation_callTool _ _ _ _ _ Hop).
  run_handler. destruct (lspConnection s) as [c|] eqn:Hc; [|done].
  by_cases name w args; by rewrite !Hq, !deliver_nil.
Qed.

Lemma tool_call_without_pushes_witness :
  state_of (callTool {| Mcp.name := "lpc_diagnostics";
                        Mcp.arguments := Some Scenario.roomArgs |}
              Scenario.quiet Scenario.started)
  = Scenario.started.
Proof.
  apply (tool_call_without_pushes_keeps_state "lpc_diagnostics"
           Scenario.roomArgs _ Scenario.quiet Scenario.started
           (op_callTool _ _)).
  intros e. reflexivity.
Defined.

(** The diagnostics tool never sends a request, and nothing about it
    depends on how the engine answers requests: in two environments that
    agree on the file system, on the writing of notifications and on the
    pushes, the call has the same result, final state and trace. *)
Theorem diagnostics_never_asks_the_engine args h w w' s :
  operation "lpc_diagnostics" args h →
  Forall (fun e => isRequest e = false) (trace_of (h w s))
  ∧ ((∀ path encoding, readFile w' path encoding = readFile w path encoding) →
     (∀ method params, notified w' method params = notified w method params) →
     (∀ e, arrivals w' e = arrivals w e) →
     h w' s = h w s).
Proof.
  intros Hop. rewrite !(operation_callTool _ _ _ _ _ Hop).
  run_handler. destruct (lspConnection s) as [c|] eqn:Hc.
  2:{ simpl. split; [done|]. done. }
  split.
  - destruct (readFile w (Mcp.file args) "utf-8") as [content|e|] eqn:Hread;
      [destruct (notified w "textDocument/didOpen"
                   (didOpen (fileUri (Mcp.file args)) content))
         as [[]|e|] eqn:Hopen| |]; simpl; repeat constructor.
  - intros Hfs Hnote Hpush. rewrite Hfs, !Hpush.
    destruct (readFile w (Mcp.file args) "utf-8") as [content|e|] eqn:Hread;
      [|done..].
    rewrite Hnote, !Hpush. done.
Qed.

Lemma diagnostics_never_asks_witness :
  callTool {| Mcp.name := "lpc_diagnostics";
              Mcp.arguments := Some Scenario.roomArgs |}
    Scenario.mute Scenario.started
  = callTool {| Mcp.name := "lpc_diagnostics";
                Mcp.arguments := Some Scenario.roomArgs |}
      Scenario.quiet Scenario.started.
Proof.
  apply (proj2 (diagnostics_never_asks_the_engine Scenario.roomArgs _
                  Scenario.quiet Scenario.mute Scenario.started
                  (op_callTool _ _)));
    intros; reflexivity.
Defined.

(** Hover, definition and references have no timeout: when the engine
    never answers, the call stays pending after its request was sent. *)
Theorem position_tool_waits_forever name args h w s content :
  operation name args h →
  name ∈ Prototype.listTools →
  ready s →
  readFile w (Mcp.file args) "utf-8" = Ok content →
  notified w "textDocument/didOpen"
    (didOpen (fileUri (Mcp.file args)) content) = Ok tt →
  (∀ method params, replied w method params = Silent) →
  result_of (h w s) = Pending
  ∧ (∃ method params, last (trace_of (h w s)) = Some (SendRequest method params)).
Proof.
  intros Hop Hname [c Hc] Hread Hopen Hsilent.
  rewrite (operation_callTool _ _ _ _ _ Hop).
  run_handler. rewrite Hc, Hread, Hopen. simpl.
  unfold Prototype.listTools in Hname.
  repeat (apply elem_of_cons in Hname as [->|Hname]); simpl;
    rewrite ?Hsilent; simpl; eauto.
  by apply elem_of_nil in Hname.
Qed.

Lemma position_tool_waits_forever_witness :
  result_of (callTool {| Mcp.name := "lpc_hover";
                         Mcp.arguments := Some Scenario.roomArgs |}
               Scenario.mute Scenario.started)
  = Pending.
Proof.
  apply (position_tool_waits_forever "lpc_hover" Scenario.roomArgs _
           Scenario.mute Scenario.started "int x;" (op_callTool _ _)).
  - vm_compute. by left.
  - apply started_ready.
  - reflexivity.
  - reflexivity.
  - intros method params. reflexivity.
Defined.

(** A call whose file cannot be read contacts nothing else, and a call
    whose open notification fails sends no request. *)
Theorem failed_open_step_stops_the_call name args h w s :
  operation name args h →
  ready s →
  let file := Mcp.file args in
  let read := FsReadFile file "utf-8" in
  (∀ m, readFile w file "utf-8" = Err m → trace_of (h w s) = [read])
  ∧ (∀ content m,
       readFile w file "utf-8" = Ok content →
       notified w "textDocument/didOpen" (didOpen (fileUri file) content)
       = Err m →
       trace_of (h w s)
       = [read;
          SendNotification "textDocument/didOpen"
            (didOpen (fileUri file) content)]).
Proof.
  intros Hop [c Hc]. cbv zeta.
  rewrite (operation_callTool _ _ _ _ _ Hop).
  run_handler. rewrite Hc.
  split.
  - intros m ->. done.
  - intros content m -> ->. done.
Qed.

Lemma failed_open_step_witness :
  trace_of (callTool {| Mcp.name := "lpc_references";
                        Mcp.arguments := Some Scenario.roomArgs |}
              Scenario.unreadable Scenario.started)
  = [FsReadFile "/m/room.c" "utf-8"].
Proof.
  apply (proj1 (failed_open_step_stops_the_call "lpc_references"
                  Scenario.roomArgs _ Scenario.unreadable Scenario.started
                  (op_callTool _ _) started_ready)
           "ENOENT: no such file or directory").
  reflexivity.
Defined.

(** In the [switch] handler an unknown tool name is only noticed after
    the file was read and opened in the engine: both effects happen, and
    no request follows. *)
Theorem unknown_tool_still_opens_the_file name args w s content :
  name ∉ listTools →
  ready s →
  readFile w (Mcp.file args) "utf-8" = Ok content →
  notified w "textDocument/didOpen"
    (didOpen (fileUri (Mcp.file args)) content) = Ok tt →
  trace_of (callTool {| Mcp.name := name; Mcp.arguments := Some args |} w s)
  = [FsReadFile (Mcp.file args) "utf-8";
     SendNotification "textDocument/didOpen"
       (didOpen (fileUri (Mcp.file args)) content)].
Proof.
  intros Hn [c Hc] Hread Hopen. apply not_listed in Hn as (H1 & H2 & H3 & H4).
  run_handler. by rewrite Hc, Hread, Hopen, H1, H2, H3, H4.
Qed.

Lemma unknown_tool_still_opens_witness :
  trace_of (callTool {| Mcp.name := "lpc_rename";
                        Mcp.arguments := Some Scenario.roomArgs |}
              Scenario.quiet Scenario.started)
  = [FsReadFile "/m/room.c" "utf-8";
     SendNotification "textDocument/didOpen"
       (didOpen Scenario.roomUri "int x;")].
Proof.
  apply (unknown_tool_still_opens_the_file "lpc_rename" Scenario.roomArgs
           Scenario.quiet Scenario.started "int x;").
  - unfold listTools. intros Hin.
    repeat (apply elem_of_cons in Hin as [Hin|Hin]; [discriminate|]).
    by apply elem_of_nil in Hin.
  - apply started_ready.
  - reflexivity.
  - reflexivity.
Defined.

(** The tool [lpc_X], for X among hover, definition and references,
    sends [textDocument/X] for the URI [file://] followed by the path,
    with the call's line and character unchanged (zero-indexed in,
    zero-indexed out) and with a context only for references; when the
    engine answers with a result, the call returns, without [isError],
    one text block holding [JSON.stringify(result, null, 2)], which for
    the object with the one member [contents] is the three-line text
    spelled out at the end. *)
Theorem position_request_passes_arguments_through suffix args h w s content :
  operation ("lpc_" ++ suffix) args h →
  suffix ∈ ["hover"; "definition"; "references"] →
  ready s →
  let file := Mcp.file args in
  let uri := "file://" ++ file in
  let opened :=
    Lsp.DidOpenParams
      {| Lsp.doc_uri := uri; Lsp.languageId := "lpc";
         Lsp.version := 1; Lsp.text := content |} in
  let request :=
    SendRequest ("textDocument/" ++ suffix)
      (Lsp.PositionParams uri
         {| Lsp.line := Mcp.line args; Lsp.character := Mcp.character args |}
         (if String.eqb suffix "references"
          then Some {| Lsp.includeDeclaration := true |} else None)) in
  let n := String "010"%char "" in
  let q := String "034"%char "" in
  readFile w file "utf-8" = Ok content →
  notified w "textDocument/didOpen" opened = Ok tt →
  trace_of (h w s)
  = [FsReadFile file "utf-8";
     SendNotification "textDocument/didOpen" opened;
     request]
  ∧ (∀ after v,
       replied w ("textDocument/" ++ suffix)
         (Lsp.PositionParams uri
            {| Lsp.line := Mcp.line args; Lsp.character := Mcp.character args |}
            (if String.eqb suffix "references"
             then Some {| Lsp.includeDeclaration := true |} else None))
       = Answer after (Ok v) →
       result_of (h w s)
       = Return {| Mcp.content :=
                     [{| Mcp.type := "text"; Mcp.text := stringify v |}];
                   Mcp.isError := false |})
  ∧ stringify (JObject [("contents", JString "int x")])
    = "{" ++ n ++ "  " ++ q ++ "contents" ++ q ++ ": " ++ q ++ "int x" ++ q
      ++ n ++ "}".
Proof.
  intros Hop Hsuffix [c Hc]. cbv zeta. intros Hread Hopen.
  split; [|split; [|reflexivity]].
  all: rewrite (operation_callTool _ _ _ _ _ Hop).
  all: run_handler; unfold fileUri, didOpen; rewrite Hc, Hread, Hopen; simpl.
  all: repeat (apply elem_of_cons in Hsuffix as [->|Hsuffix]); simpl.
  all: try (by apply elem_of_nil in Hsuffix).
  1-3: match goal with
       | |- context [replied ?w0 ?meth ?ps] =>
           by destruct (replied w0 meth ps) as [?t [?v|?e|]|]
       end.
  all: intros after v' Hans.
  all: cbv [String.append] in Hans |- *; unfold positionOf.
  all: by rewrite Hans.
Qed.

Lemma position_request_witness :
  result_of (callTool {| Mcp.name := "lpc_definition";
                         Mcp.arguments := Some Scenario.roomArgs |}
               Scenario.quiet Scenario.started)
  = Return {| Mcp.content := [{| Mcp.type := "text"; Mcp.text := "null" |}];
              Mcp.isError := false |}.
Proof.
  apply (proj1 (proj2 (position_request_passes_arguments_through "definition"
                  Scenario.roomArgs _ Scenario.quiet Scenario.started "int x;"
                  (op_callTool _ _)
                  ltac:(vm_compute; right; by left) started_ready
                  eq_refl eq_refl)) 10 JNull).
  reflexivity.
Defined.

(** The severity label is Error, Warning, Information, Hint for 1 to 4
    and [Unknown] for everything else: a missing severity, zero, a
    negative number, or anything above 4. *)
Theorem severityName_range (sev : option Z) :
  severityName (Some 1) = "Error"
  ∧ severityName (Some 2) = "Warning"
  ∧ severityName (Some 3) = "Information"
  ∧ severityName (Some 4) = "Hint"
  ∧ (severityName sev = "Unknown"
     ↔ ¬ ∃ n, sev = Some n ∧ (1 ≤ n ≤ 4)%Z).
Proof.
  do 4 (split; [reflexivity|]).
  destruct sev as [n|]; simpl.
  2:{ split; [|done]. intros _ (n & ? & _). done. }
  destruct (decide (1 ≤ n ≤ 4)%Z) as [Hin|Hout].
  - assert (n = 1 ∨ n = 2 ∨ n = 3 ∨ n = 4) as [-> | [-> | [-> | ->]]] by lia.
    all: split; [done|]; intros Hno; exfalso; apply Hno; eexists; split; [done|lia].
  - split; [intros _ (m & Hm & ?); simplify_eq; lia|]. intros _.
    unfold severityName. destruct (0 <=? n - 1)%Z eqn:Hle; [|done].
    rewrite lookup_ge_None_2; [done|]. simpl. lia.
Qed.

(** The tools that [setupTools] registers are exactly the tools that
    the [ListToolsRequestSchema] handler announces. *)
Theorem registered_tools_are_the_listed_ones name :
  is_Some (Tools.registered name) ↔ name ∈ listTools.
Proof.
  unfold Tools.registered, listTools.
  destruct (String.eqb_spec name "lpc_hover") as [->|H1];
    [split; [intros _; set_solver|eauto]|].
  destruct (String.eqb_spec name "lpc_definition") as [->|H2];
    [split; [intros _; set_solver|eauto]|].
  destruct (String.eqb_spec name "lpc_references") as [->|H3];
    [split; [intros _; set_solver|eauto]|].
  destruct (String.eqb_spec name "lpc_diagnostics") as [->|H4];
    [split; [intros _; set_solver|eauto]|].
  split; [by intros [? ?]|]. intros Hin.
  repeat (apply elem_of_cons in Hin as [?|Hin]; [done|]).
  by apply elem_of_nil in Hin.
Qed.

End HandlersMore.

(** ** More on start-up *)

Section StartupMore.
Import Json Bridge.
Open Scope string_scope.

Ltac run_startup :=
  unfold main, run, run_latest, startLSP, startLSP_latest, connectEngine,
    handshake, serverConnect, spawn, listen, ask, put_state,
    bind, try_catch, get_state, sendNotification, await, ret, throw,
    result_of, state_of, trace_of, initTimeout.

Ltac in_trace H :=
  repeat (apply elem_of_cons in H as [H|H]; [try discriminate|]);
  try (by apply elem_of_nil in H).

Ltac run_handler :=
  unfold callTool, bind, try_catch, get_state, fs_readFile, sendNotification,
    sendRequest, sleep, await, ret, throw, result_of, state_of, trace_of;
  simpl.

Ltac by_cases name w args :=
  destruct (readFile w (Mcp.file args) "utf-8") as [?content|?e|] eqn:?Hread;
    [destruct (notified w "textDocument/didOpen"
              (didOpen (fileUri (Mcp.file args)) content)) as [[]|?e|] eqn:?Hopen;
    [destruct (String.eqb name "lpc_hover") eqn:?Hname;
    [|destruct (String.eqb name "lpc_definition") eqn:?Hname;
      [|destruct (String.eqb name "lpc_references") eqn:?Hname;
        [|destruct (String.eqb name "lpc_diagnostics") eqn:?Hname]]]| |]| |];
  try match goal with
      | |- context [replied ?w0 ?meth ?ps] =>
          destruct (replied w0 meth ps) as [?t [?v|?e|]|] eqn:?Hrep
      end; simpl.

Lemma callTool_ready_not_refused request w s :
  ready s → result_of (callTool request w s) ≠ Throw "LSP not initialized".
Proof.
  destruct request as [name [args|]]; [by apply callTool_never_throws|].
  intros [c Hc]. run_handler. by rewrite Hc.
Qed.

(** [startLSP] stores the child process and the connection before the
    handshake, and nothing clears them afterwards: they are set however
    the handshake ends, so the handlers' guard would not refuse a call
    after a failed handshake. *)
Theorem startLSP_always_leaves_a_connection w s :
  let lspPath := path_join (HOME w) serverScript in
  let child := Spawned "node" [lspPath; "--stdio"] in
  lspProcess (state_of (startLSP w s)) = Some child
  ∧ lspConnection (state_of (startLSP w s)) = Some (Connection child)
  ∧ (∀ request w',
       result_of (callTool request w' (state_of (run w s)))
       ≠ Throw "LSP not initialized").
Proof.
  cbv zeta.
  assert (lspProcess (state_of (startLSP w s))
          = Some (Spawned "node" [path_join (HOME w) serverScript; "--stdio"])
          ∧ lspConnection (state_of (startLSP w s))
            = Some (Connection
                      (Spawned "node" [path_join (HOME w) serverScript; "--stdio"])))
    as [Hp Hc].
  { run_startup. unfold race_with_timeout.
    destruct (replied w "initialize" _) as [after [v|e|]|]; simpl;
      try destruct ((5000 <? after)%Z || (after =? 5000)%Z && timerWinsTie w);
      simpl;
      try destruct (notified w "initialized" Lsp.EmptyParams) as [[]|e'|];
      simpl; by rewrite ?deliver_connection, ?deliver_process. }
  split; [done|]. split; [done|].
  intros [name args] w'.
  assert (lspConnection (state_of (run w s))
          = Some (Connection
                    (Spawned "node" [path_join (HOME w) serverScript; "--stdio"])))
    as Hrun.
  { revert Hc. run_startup. unfold race_with_timeout.
    destruct (replied w "initialize" _) as [after [v|e|]|]; simpl;
      try destruct ((5000 <? after)%Z || (after =? 5000)%Z && timerWinsTie w);
      simpl;
      try destruct (notified w "initialized" Lsp.EmptyParams) as [[]|e'|];
      simpl; by rewrite ?deliver_connection. }
  apply callTool_ready_not_refused. unfold ready. rewrite Hrun. eauto.
Qed.

(** When the engine answers [initialize] with an error before the timer
    fires, [run] fails with the engine's message, [initialized] is not
    sent and the tool server is not connected. *)
Theorem handshake_error_is_reported w s after m :
  replied w "initialize" (Lsp.InitializeParams (pid w) (rootUri w))
  = Answer after (Err m) →
  after < 5000 →
  result_of (run w s) = Throw m
  ∧ trace_of (run w s)
    = [Spawn "node" [path_join (HOME w) serverScript; "--stdio"]; Listen;
       SendRequest "initialize" (Lsp.InitializeParams (pid w) (rootUri w));
       SetTimeout 5000].
Proof.
  intros Hrep Hlt. run_startup. unfold race_with_timeout. rewrite Hrep.
  assert ((5000 <? after)%Z = false) as -> by lia.
  assert ((after =? 5000)%Z = false) as -> by lia.
  done.
Qed.

Lemma handshake_error_witness :
  result_of (run Cases.refusing constructor)
  = Throw "Unhandled method initialize".
Proof.
  apply (handshake_error_is_reported Cases.refusing constructor 20
           "Unhandled method initialize");
    [reflexivity | lia].
Defined.

(** A start-up whose handshake is answered in time performs, in this
    order: spawn, listen, [initialize] with its timer, [initialized],
    and the connection of the tool server; it keeps whatever the cache
    already held. *)
Theorem run_success_trace w s after v :
  replied w "initialize" (Lsp.InitializeParams (pid w) (rootUri w))
  = Answer after (Ok v) →
  after < 5000 →
  notified w "initialized" Lsp.EmptyParams = Ok tt →
  result_of (run w s) = Return tt
  ∧ trace_of (run w s)
    = [Spawn "node" [path_join (HOME w) serverScript; "--stdio"]; Listen;
       SendRequest "initialize" (Lsp.InitializeParams (pid w) (rootUri w));
       SetTimeout 5000;
       SendNotification "initialized" Lsp.EmptyParams;
       ServerConnect]
  ∧ (∀ uri, is_Some (diagnosticsCache s !! uri) →
            is_Some (diagnosticsCache (state_of (run w s)) !! uri)).
Proof.
  intros Hrep Hlt Hnote. run_startup. unfold race_with_timeout. rewrite Hrep.
  assert ((5000 <? after)%Z = false) as -> by lia.
  assert ((after =? 5000)%Z = false) as -> by lia.
  simpl. rewrite Hnote. simpl. repeat split.
  intros uri Hin. by repeat apply deliver_keeps.
Qed.

Lemma run_success_witness :
  result_of (run Scenario.quiet constructor) = Return tt.
Proof.
  apply (run_success_trace Scenario.quiet constructor 10 JNull);
    [reflexivity | lia | reflexivity].
Defined.

Lemma tools_served_witness : ready (state_of (run Scenario.quiet constructor)).
Proof.
  apply (tools_served_only_after_handshake Scenario.quiet constructor).
  vm_compute. do 5 right. by left.
Defined.

#[local] Existing Instance Bridge.name_le_dec.

Lemma leb_total (a b : JsText.jsstring) :
  JsText.leb a b = true ∨ JsText.leb b a = true.
Proof.
  revert b. induction a as [|x a IH]; intros [|y b]; simpl; auto.
  destruct (N.ltb_spec x y), (N.ltb_spec y x); auto; lia.
Qed.

Lemma leb_trans (a b c : JsText.jsstring) :
  JsText.leb a b = true → JsText.leb b c = true → JsText.leb a c = true.
Proof.
  revert b c. induction a as [|x a IH]; intros [|y b] [|z c]; simpl; try done.
  destruct (N.ltb_spec x y), (N.ltb_spec y x), (N.ltb_spec y z),
    (N.ltb_spec z y), (N.ltb_spec x z), (N.ltb_spec z x);
    try done; try lia.
  apply IH.
Qed.

#[local] Instance name_le_trans : Transitive name_le.
Proof. intros a b c. apply leb_trans. Qed.

#[local] Instance name_le_total : Total name_le.
Proof. intros a b. apply leb_total. Qed.

Lemma last_of_sorted (l : list string) (m : string) :
  StronglySorted name_le l → last l = Some m →
  ∀ n, n ∈ l → name_le n m.
Proof.
  induction 1 as [|x l Hs IH Hx]; [done|].
  intros Hlast n Hn. destruct l as [|y l].
  - simpl in Hlast. apply list_elem_of_singleton in Hn. simplify_eq.
    by destruct (name_le_total m m).
  - apply elem_of_cons in Hn as [->|Hn].
    + rewrite Forall_forall in Hx. apply Hx.
      rewrite last_cons_cons in Hlast. by apply last_Some_elem_of.
    + apply IH; [|done]. by rewrite last_cons_cons in Hlast.
Qed.

(** The extension that [startLSP] picks is the one whose directory name
    is greatest in the order of the names' UTF-16 code units (so
    [1.1.9] is preferred to [1.1.42]); none is picked exactly when no
    directory matched. *)
Theorem latestExtension_is_greatest_name (names : list string) :
  (latestExtension names = None ↔ names = [])
  ∧ (∀ latest, latestExtension names = Some latest →
       latest ∈ names
       ∧ ∀ n, n ∈ names →
              JsText.leb (JsText.of_utf8 n) (JsText.of_utf8 latest) = true).
Proof.
  unfold latestExtension. rewrite head_reverse.
  pose proof (merge_sort_Permutation name_le names) as Hperm.
  split.
  - rewrite last_None. split.
    + intros Hnil. rewrite Hnil in Hperm. by apply Permutation_nil_l in Hperm.
    + intros ->. done.
  - intros latest Hlast. split.
    + rewrite <- Hperm. by apply last_Some_elem_of.
    + intros n Hn. rewrite <- Hperm in Hn.
      by apply (last_of_sorted _ _ (StronglySorted_merge_sort name_le names) Hlast).
Qed.

Lemma latestExtension_witness :
  JsText.leb (JsText.of_utf8 "jlchmura.lpc-1.1.42")
    (JsText.of_utf8 "jlchmura.lpc-1.1.9") = true.
Proof.
  apply (proj2 (latestExtension_is_greatest_name
                  ["jlchmura.lpc-1.1.42"; "jlchmura.lpc-1.1.9"])
           "jlchmura.lpc-1.1.9");
    [reflexivity | by left].
Defined.

(** With no matching extension directory [run] fails with the
    not-found message before anything is spawned or sent, and the
    state is untouched. *)
Theorem no_extension_nothing_spawned w s :
  extensions w = [] →
  run_latest w s
  = (Throw ("LPC language server extension not found. "
            ++ "Please install the jlchmura.lpc extension."), s, []).
Proof. intros Hnone. run_startup. by rewrite Hnone. Qed.

Lemma no_extension_witness :
  trace_of (run_latest Cases.bare constructor) = [].
Proof.
  exact (f_equal trace_of
           (no_extension_nothing_spawned Cases.bare constructor eq_refl)).
Defined.

End StartupMore.

(** ** The first version of the handler *)

Section PrototypeMore.
Import Json Bridge.
Open Scope string_scope.

(** The first handler performs at most one outside call, a request; it
    never reads the file or sends [didOpen], and it leaves the state
    alone. *)
Theorem prototype_sends_only_the_request request w s :
  Forall (fun e => isRequest e = true) (trace_of (Prototype.callTool request w s))
  ∧ (length (trace_of (Prototype.callTool request w s)) ≤ 1)%nat
  ∧ state_of (Prototype.callTool request w s) = s.
Proof.
  destruct request as [name args].
  unfold Prototype.callTool, Prototype.sendRequest, bind, try_catch, get_state,
    ret, throw, result_of, state_of, trace_of. simpl.
  destruct (lspConnection s); [|by repeat constructor].
  repeat case_match; simplify_eq; simpl; repeat constructor.
Qed.



(** For hover, definition and references the current handler is the
    first one preceded by the file read and the open notification: once
    those two succeed it sends the same request and returns the same
    result. *)
Theorem handler_extends_prototype name args w s content :
  name ∈ Prototype.listTools →
  ready s →
  let request := {| Mcp.name := name; Mcp.arguments := Some args |} in
  let uri := fileUri (Mcp.file args) in
  readFile w (Mcp.file args) "utf-8" = Ok content →
  notified w "textDocument/didOpen" (didOpen uri content) = Ok tt →
  result_of (callTool request w s) = result_of (Prototype.callTool request w s)
  ∧ trace_of (callTool request w s)
    = FsReadFile (Mcp.file args) "utf-8"
      :: SendNotification "textDocument/didOpen" (didOpen uri content)
      :: trace_of (Prototype.callTool request w s).
Proof.
  intros Hname [c Hc]. cbv zeta. intros Hread Hopen.
  unfold Prototype.callTool, Prototype.sendRequest, callTool, bind, try_catch,
    get_state, fs_readFile, sendNotification, sendRequest, await, ret, throw,
    result_of, state_of, trace_of. simpl.
  rewrite Hc, Hread, Hopen. simpl.
  unfold Prototype.listTools in Hname.
  repeat (apply elem_of_cons in Hname as [->|Hname]); simpl.
  4: by apply elem_of_nil in Hname.
  all: match goal with
       | |- context [replied ?w0 ?meth ?ps] =>
           destruct (replied w0 meth ps) as [?t [?v|?e|]|] eqn:?Hrep
       end; simpl; done.
Qed.

Lemma handler_extends_prototype_witness :
  result_of (callTool {| Mcp.name := "lpc_hover";
                         Mcp.arguments := Some Scenario.roomArgs |}
               Scenario.quiet Scenario.started)
  = result_of (Prototype.callTool {| Mcp.name := "lpc_hover";
                                     Mcp.arguments := Some Scenario.roomArgs |}
                 Scenario.quiet Scenario.started).
Proof.
  apply (handler_extends_prototype "lpc_hover" Scenario.roomArgs
           Scenario.quiet Scenario.started "int x;");
    [by left | apply started_ready | reflexivity | reflexivity].
Defined.

End PrototypeMore.
